(** * Scraper_Borsa: batch download with retry

    A shallow embedding of [Scraper_Borsa/Scraper_Borsa_Script.py]:
    the constituent resolver, the batch plan of [main], the body of
    [download_batch] under its [tenacity] retry decorator, the batch loop
    of [main] and the output stage that follows it.

    Python integers are unbounded, so they are [Z]; lists are [list];
    exceptions are values of [exn] carried in a sum. *)

From Stdlib Require Import List ZArith Lia String Ascii Bool Arith.
Import ListNotations.
Local Open Scope Z_scope.

Set Implicit Arguments.

(** ** Python exceptions *)

(** An exception of class [cls] whose [str()] is [msg], or the
    [RetryError] that [tenacity] raises from the last failed attempt. *)
Inductive exn : Type :=
| PyError (cls msg : string)
| RetryError (last : exn).

Definition ValueError (msg : string) : exn := PyError "ValueError" msg.
Definition IndexError (msg : string) : exn := PyError "IndexError" msg.

Definition result (A : Type) : Type := (exn + A)%type.

(** ** Python sequences: [range] and slicing *)

Module Py.

Section Seq.
Variable A : Type.

Definition len (l : list A) : Z := Z.of_nat (List.length l).

(** [PySlice_AdjustIndices] for a step of 1: a negative bound counts
    from the end, and both bounds are clamped to [0, len]. *)
Definition adjust_index (n i : Z) : Z :=
  if i <? 0 then Z.max 0 (i + n) else Z.min i n.

(** [l[lo:hi]] *)
Definition slice (l : list A) (lo hi : Z) : list A :=
  let n := len l in
  let a := adjust_index n lo in
  let b := adjust_index n hi in
  firstn (Z.to_nat (b - a)) (skipn (Z.to_nat a) l).

End Seq.

(** Number of items of [range(start, stop, step)] for [step <> 0]. *)
Definition range_length (start stop step : Z) : Z :=
  if 0 <? step then
    if start <? stop then (stop - start - 1) / step + 1 else 0
  else
    if stop <? start then (start - stop - 1) / (- step) + 1 else 0.

(** [range(start, stop, step)], listed; a zero step is a [ValueError]. *)
Definition range (start stop step : Z) : result (list Z) :=
  if step =? 0 then inl (ValueError "range() arg 3 must not be zero")
  else inr (map (fun k => start + Z.of_nat k * step)
                (seq 0 (Z.to_nat (range_length start stop step)))).

(** [needle in hay] on strings. *)
Definition contains (needle hay : string) : bool :=
  match String.index 0 needle hay with
  | Some _ => true
  | None => false
  end.

(** [str.lower] on the ASCII letters. *)
Definition lower_ascii (c : ascii) : ascii :=
  let n := nat_of_ascii c in
  if (Nat.leb 65 n && Nat.leb n 90)%bool then ascii_of_nat (n + 32) else c.

Fixpoint lower (s : string) : string :=
  match s with
  | EmptyString => EmptyString
  | String c r => String (lower_ascii c) (lower r)
  end.

(** [s.replace(old, new)] for one-character [old] and [new]. *)
Fixpoint replace_char (old new : ascii) (s : string) : string :=
  match s with
  | EmptyString => EmptyString
  | String c r =>
      String (if Ascii.eqb c old then new else c) (replace_char old new r)
  end.

End Py.

(** ** The batch plan of [main]

    [[tickers[i:i + batch_size] for i in range(0, len(tickers), batch_size)]] *)
Definition batches (A : Type) (tickers : list A) (batch_size : Z)
  : result (list (list A)) :=
  match Py.range 0 (Py.len tickers) batch_size with
  | inl e => inl e
  | inr starts =>
      inr (map (fun i => Py.slice tickers i (i + batch_size)) starts)
  end.

(** The [k]-th batch of a plan of size [b], on natural numbers: what the
    slice is shown to be below. *)
Definition chunk (A : Type) (b : nat) (l : list A) (k : nat) : list A :=
  firstn b (skipn (k * b) l).

(** ** [tenacity]: the retry decorator of [download_batch] *)

Module Tenacity.

(** [wait_exponential(multiplier, min, max)] with [exp_base = 2]: the wait
    after failed attempt number [attempt_number], counted from 1. *)
Definition wait_exponential (multiplier min max : Z) (attempt_number : Z) : Z :=
  let exp := 2 ^ (attempt_number - 1) in
  let result := multiplier * exp in
  Z.max (Z.max 0 min) (Z.min result max).

Section Retrying.
Variables W A : Type.
(** the decorated function, on the state [W] of the run *)
Variable fn : W -> W * result A.
(** [time.sleep] *)
Variable sleep : Z -> W -> W.
Variable wait : Z -> Z.

(** The loop of [Retrying.__call__]: call [fn]; a result is returned; on
    an exception, [stop_after_attempt(n)] stops once [attempt_number >= n]
    and [RetryError] is raised from the last exception, otherwise the loop
    sleeps [wait attempt_number] and calls again.  [remaining] is the
    number of attempts still allowed after the current one. *)
Fixpoint attempt (remaining : nat) (attempt_number : Z) (w : W)
  : W * result A :=
  match fn w with
  | (w1, inr v) => (w1, inr v)
  | (w1, inl e) =>
      match remaining with
      | O => (w1, inl (RetryError e))
      | S k => attempt k (attempt_number + 1) (sleep (wait attempt_number) w1)
      end
  end.

(** [stop_after_attempt(max_attempt_number)] *)
Definition retry (max_attempt_number : nat) (w : W) : W * result A :=
  attempt (max_attempt_number - 1) 1 w.

End Retrying.

End Tenacity.

(** ** Tables *)

Section Tables.
Variables date price : Type.

(** One row of the provider's history for one ticker ([auto_adjust=False]):
    the index [Date] and six columns; a missing value (NaN) is [None]. *)
Record PriceRecord : Type := {
  Date : date;
  Open : option price;
  High : option price;
  Low : option price;
  Close : option price;
  AdjClose : option price;
  Volume : option price
}.

Definition isna (v : option price) : bool :=
  match v with
  | None => true
  | Some _ => false
  end.

Definition any_na (r : PriceRecord) : bool :=
  isna (Open r) || isna (High r) || isna (Low r)
  || isna (Close r) || isna (AdjClose r) || isna (Volume r).

(** [df.dropna()]: rows with a missing value in some column go. *)
Definition dropna (df : list PriceRecord) : list PriceRecord :=
  filter (fun r => negb (any_na r)) df.

(** A row once [reset_index()] has made [Date] a column and
    [df["Ticker"] = t] has added the ticker. *)
Record TickerRow : Type := {
  quote : PriceRecord;
  Ticker : string
}.

Definition TickerTable : Type := list TickerRow.

(** [dft = df.reset_index(); dft["Ticker"] = t] *)
Definition set_ticker (t : string) (df : list PriceRecord) : TickerTable :=
  map (fun r => {| quote := r; Ticker := t |}) df.

(** What [yf.download(..., group_by="ticker")] returns: a frame whose
    columns are a [MultiIndex] keyed by ticker, where [df[t]] gives the
    ticker's rows or raises, or a flat frame of rows. *)
Inductive DataFrame : Type :=
| MultiIndexFrame (getitem : string -> result (list PriceRecord))
| FlatFrame (rows : list PriceRecord).

(** [not isinstance(df.columns, pd.MultiIndex)] *)
Definition is_flat (df : DataFrame) : bool :=
  match df with
  | FlatFrame _ => true
  | MultiIndexFrame _ => false
  end.

(** What [yf.Ticker(index).constituents] evaluates to: a [DataFrame], given
    by its named columns, or some other object. *)
Inductive constituents : Type :=
| NotADataFrame
| ConstituentsFrame (columns : list (string * list (option string))).

End Tables.

Arguments NotADataFrame : clear implicits.
Arguments FlatFrame {date price} rows.
Arguments MultiIndexFrame {date price} getitem.

(** ** The run: provider, error log and observable events *)

(** A line of [errors.log]. *)
Inductive log_entry : Type :=
| ErroreTicker (t : string) (e : exn)
| ErroreBatch (batch : list string) (e : exn).

(** What the run does to the outside, in order: a call of [yf.download],
    a sleep of the retry loop, and the pause of [main] after a batch,
    [time.sleep(random.uniform(1, 3))], whose drawn length is left out. *)
Inductive event : Type :=
| Download (tickers : list string) (period interval : string)
| Sleep (seconds : Z)
| Throttle.

(** Observers of the trace and of the log, for the statements below. *)
Definition sleeps (evs : list event) : list Z :=
  flat_map (fun ev => match ev with Sleep d => [d] | _ => [] end) evs.

Definition is_download (ev : event) : bool :=
  match ev with Download _ _ _ => true | _ => false end.

Definition is_throttle (ev : event) : bool :=
  match ev with Throttle => true | _ => false end.

Definition is_batch_entry (entry : log_entry) : bool :=
  match entry with ErroreBatch _ _ => true | ErroreTicker _ _ => false end.

Definition batch_entries (lg : list log_entry) : list log_entry :=
  filter is_batch_entry lg.

Section Scraper.
Variables date price : Type.

(** The external provider, as a state machine. *)
Variable pstate : Type.
Variable yf_constituents : string -> pstate -> pstate * result constituents.
Variable yf_download :
  list string -> string -> string -> pstate ->
  pstate * result (DataFrame date price).

Record world : Type := {
  provider : pstate;
  errors_log : list log_entry;
  events : list event
}.

(** Computations of the script: state passing with exceptions. *)
Definition M (A : Type) : Type := world -> world * result A.

Definition ret {A} (a : A) : M A := fun w => (w, inr a).

Definition raise {A} (e : exn) : M A := fun w => (w, inl e).

Definition bind {A B} (c : M A) (k : A -> M B) : M B :=
  fun w =>
    match c w with
    | (w1, inr a) => k a w1
    | (w1, inl e) => (w1, inl e)
    end.

(** [try: c  except Exception as e: h e] *)
Definition try_except {A} (c : M A) (h : exn -> M A) : M A :=
  fun w =>
    match c w with
    | (w1, inr a) => (w1, inr a)
    | (w1, inl e) => h e w1
    end.

Definition lift {A} (r : result A) : M A := fun w => (w, r).

Notation "x <- c ;; k" := (bind c (fun x => k))
  (at level 61, c at next level, right associativity).
Notation "c ;;; k" := (bind c (fun _ => k))
  (at level 61, right associativity).

(** [with open("errors.log", "a") as ferr: ferr.write(...)]; the write
    itself is taken to succeed. *)
Definition log (entry : log_entry) : M unit :=
  fun w =>
    ({| provider := provider w;
        errors_log := errors_log w ++ [entry];
        events := events w |}, inr tt).

Definition emit (ev : event) (w : world) : world :=
  {| provider := provider w;
     errors_log := errors_log w;
     events := events w ++ [ev] |}.

Definition constituents_query (index_ticker : string) : M constituents :=
  fun w =>
    let (p, r) := yf_constituents index_ticker (provider w) in
    ({| provider := p; errors_log := errors_log w; events := events w |}, r).

Definition download (tickers : list string) (period interval : string)
  : M (DataFrame date price) :=
  fun w =>
    let (p, r) := yf_download tickers period interval (provider w) in
    ({| provider := p;
        errors_log := errors_log w;
        events := events w ++ [Download tickers period interval] |}, r).

(** *** [get_index_constituents] *)

Definition fallback : list string :=
  ["ENI.MI"; "ENEL.MI"; "ISP.MI"; "UCG.MI"; "LDO.MI"; "STLAM.MI"]%string.

(** ["Symbol" in comps.columns] *)
Definition has_column (name : string) (cols : list (string * list (option string)))
  : bool :=
  existsb (fun c => String.eqb (fst c) name) cols.

(** [Series.dropna()] *)
Definition series_dropna (s : list (option string)) : list string :=
  flat_map (fun v => match v with Some x => [x] | None => [] end) s.

(** [Series.unique()]: first occurrences, in order. *)
Fixpoint unique_from (seen : list string) (s : list string) : list string :=
  match s with
  | [] => []
  | x :: r =>
      if existsb (String.eqb x) seen then unique_from seen r
      else x :: unique_from (x :: seen) r
  end.

Definition unique (s : list string) : list string := unique_from [] s.

(** [comps["Symbol"].dropna().unique().tolist()]: with one column of that
    name [comps["Symbol"]] is a [Series]; with several it is a [DataFrame],
    which has no [unique]. *)
Definition symbols (cols : list (string * list (option string)))
  : result (list string) :=
  match filter (fun c => String.eqb (fst c) "Symbol") cols with
  | [c] => inr (unique (series_dropna (snd c)))
  | _ =>
      inl (PyError "AttributeError"
                   "'DataFrame' object has no attribute 'unique'")
  end.

(** The [try] block returns [Some] list at its [return], [None] when it
    falls through; [except Exception: pass] falls through as well. *)
Definition get_index_constituents (index_ticker : string) : M (list string) :=
  r <- try_except
         (comps <- constituents_query index_ticker ;;
          match comps with
          | ConstituentsFrame cols =>
              if has_column "Symbol" cols
              then (l <- lift (symbols cols) ;; ret (Some l))
              else ret None
          | NotADataFrame => ret None
          end)
         (fun _ => ret None) ;;
  match r with
  | Some l => ret l
  | None => ret fallback
  end.

(** *** [download_batch] *)

(** [str(e)]; the text of a [RetryError] shows the [repr] of the last
    attempt's future, which is taken as given. *)
Variable repr_future : exn -> string.

Definition str_exn (e : exn) : string :=
  match e with
  | PyError _ msg => msg
  | RetryError last => ("RetryError[" ++ repr_future last ++ "]")%string
  end.

(** The test of the outer [except]; both of its branches re-raise. *)
Definition rate_limited (e : exn) : bool :=
  Py.contains "Too Many Requests" (str_exn e)
  || Py.contains "rate limit" (Py.lower (str_exn e)).

(** The [for t in tickers] loop over a [MultiIndex] frame, with [results]
    as accumulated so far. *)
Fixpoint extract_each (getitem : string -> result (list (PriceRecord date price)))
    (tickers : list string) (results : list (TickerTable date price))
  : M (list (TickerTable date price)) :=
  match tickers with
  | [] => ret results
  | t :: rest =>
      results' <- try_except
                    (dft <- lift (getitem t) ;;
                     ret (results ++ [set_ticker t (dropna dft)]))
                    (fun e => log (ErroreTicker t e) ;;; ret results) ;;
      extract_each getitem rest results'
  end.

(** The tables and the log lines that the loop is shown to produce. *)
Definition extracted (getitem : string -> result (list (PriceRecord date price)))
    (tickers : list string) : list (TickerTable date price) :=
  flat_map (fun t => match getitem t with
                     | inr dft => [set_ticker t (dropna dft)]
                     | inl _ => []
                     end) tickers.

Definition extraction_errors
    (getitem : string -> result (list (PriceRecord date price)))
    (tickers : list string) : list log_entry :=
  flat_map (fun t => match getitem t with
                     | inr _ => []
                     | inl e => [ErroreTicker t e]
                     end) tickers.

(** The state after an attempt of [download_batch] that called the provider,
    left it in state [p] and wrote [lines] to the log. *)
Definition called (batch : list string) (period interval : string)
    (p : pstate) (lines : list log_entry) (w : world) : world :=
  {| provider := p;
     errors_log := errors_log w ++ lines;
     events := events w ++ [Download batch period interval] |}.

(** The function under the decorator: one attempt. *)
Definition download_batch_once (tickers : list string) (period interval : string)
  : M (list (TickerTable date price)) :=
  try_except
    (df <- download tickers period interval ;;
     match df with
     | MultiIndexFrame getitem => extract_each getitem tickers []
     | FlatFrame rows =>
         match tickers with
         | t :: _ => ret [set_ticker t (dropna rows)]
         | [] => raise (IndexError "list index out of range")
         end
     end)
    (fun e => if rate_limited e then raise e else raise e).

(** [@retry(wait=wait_exponential(multiplier=2, min=5, max=120),
           stop=stop_after_attempt(5))] *)
Definition download_batch (tickers : list string) (period interval : string)
  : M (list (TickerTable date price)) :=
  Tenacity.retry
    (download_batch_once tickers period interval)
    (fun seconds => emit (Sleep seconds))
    (Tenacity.wait_exponential 2 5 120)
    5.

(** *** The batch loop of [main] *)

Fixpoint download_all (batch_list : list (list string)) (period interval : string)
    (rows : list (TickerTable date price)) (w : world)
  : world * list (TickerTable date price) :=
  match batch_list with
  | [] => (w, rows)
  | batch :: rest =>
      let (w1, rows1) :=
        match download_batch batch period interval w with
        | (w', inr batch_data) => (w', rows ++ batch_data)
        | (w', inl e) => (fst (log (ErroreBatch batch e) w'), rows)
        end in
      download_all rest period interval rows1 (emit Throttle w1)
  end.

(** The fetch results of the batches of a run, in order, each computed in
    the state in which the loop reaches its batch. *)
Fixpoint outcomes (batch_list : list (list string)) (period interval : string)
    (w : world)
  : list (list string * result (list (TickerTable date price))) :=
  match batch_list with
  | [] => []
  | batch :: rest =>
      let (w', r) := download_batch batch period interval w in
      let w1 := match r with
                | inr _ => w'
                | inl e => fst (log (ErroreBatch batch e) w')
                end in
      (batch, r) :: outcomes rest period interval (emit Throttle w1)
  end.

Definition tables_of
    (hist : list (list string * result (list (TickerTable date price))))
  : list (TickerTable date price) :=
  flat_map (fun o => match snd o with inr data => data | inl _ => [] end) hist.

Definition failures_of
    (hist : list (list string * result (list (TickerTable date price))))
  : list log_entry :=
  flat_map (fun o => match snd o with
                     | inr _ => []
                     | inl e => [ErroreBatch (fst o) e]
                     end) hist.

(** *** The output stage of [main] *)

(** [groupby("Ticker")["Close"].agg(["min", "max", "mean", "std"])] is
    computed by the data-frame library on floating-point numbers; its table
    is taken as given. *)
Variable summary : Type.
Variable agg_close : TickerTable date price -> summary.

Inductive csv : Type :=
| HistoryCsv (df : TickerTable date price)
| SummaryCsv (piv : summary).

(** [df.to_csv(os.path.join(output_dir, name))], by [name]. *)
Record to_csv : Type := {
  name : string;
  content : csv
}.

(** [for df in rows: if df.empty: continue ...] *)
Definition ticker_file (period interval : string) (df : TickerTable date price)
  : list to_csv :=
  match df with
  | [] => []
  | first :: _ =>
      let safe_ticker := Py.replace_char "." "_" (Ticker first) in
      [{| name := (safe_ticker ++ "_" ++ period ++ "_" ++ interval ++ ".csv")%string;
          content := HistoryCsv df |}]
  end.

Definition save_outputs (period interval : string)
    (rows : list (TickerTable date price)) : list to_csv :=
  flat_map (ticker_file period interval) rows
  ++ match rows with
     | [] => []
     | _ :: _ =>
         let all_df := List.concat rows in
         [{| name := "all_history.csv"; content := HistoryCsv all_df |};
          {| name := "summary_stats.csv";
             content := SummaryCsv (agg_close all_df) |}]
     end.

(** *** [main]

    The arguments are those of [parse_args]; the two [print]s are left
    out.  An exception that leaves [get_index_constituents] or the batch
    plan leaves [main]. *)

Definition main (index period interval : string) (batch_size : Z)
  : M (list to_csv) :=
  tickers <- get_index_constituents index ;;
  batch_list <- lift (batches tickers batch_size) ;;
  fun w =>
    let (w1, rows) := download_all batch_list period interval [] w in
    (w1, inr (save_outputs period interval rows)).

(** [f"Errore {t}: {e}\n"] and [f"Errore batch {batch}: {e}\n"];
    [str_list] is [str()] of a list of strings. *)
Variable str_list : list string -> string.

Definition newline : string := String (ascii_of_nat 10) EmptyString.

Definition render (entry : log_entry) : string :=
  match entry with
  | ErroreTicker t e =>
      ("Errore " ++ t ++ ": " ++ str_exn e ++ newline)%string
  | ErroreBatch batch e =>
      ("Errore batch " ++ str_list batch ++ ": " ++ str_exn e ++ newline)%string
  end.

(** The text appended to [errors.log] by the run. *)
Definition errors_log_text (w : world) : string :=
  fold_right String.append EmptyString (map render (errors_log w)).

End Scraper.

Arguments HistoryCsv {date price summary} df.
Arguments SummaryCsv {date price summary} piv.

(** ** Sample providers

    Concrete providers on which the functions above are run in the
    examples below; dates and prices are integers there. *)

Module Sample.

Definition pstate : Type := unit.

Definition w0 : world pstate :=
  {| provider := tt; errors_log := []; events := [] |}.

Definition repr_future (e : exn) : string := "<Future state=finished raised>".

(** [yf.Ticker(index).constituents] raises, as on a release of the
    provider library whose [Ticker] has no such attribute. *)
Definition no_constituents (index : string) (p : pstate)
  : pstate * result constituents :=
  (p, inl (PyError "AttributeError"
                   "'Ticker' object has no attribute 'constituents'")).

(** The provider answers with a frame whose [Symbol] column has no row. *)
Definition empty_symbols (index : string) (p : pstate)
  : pstate * result constituents :=
  (p, inr (ConstituentsFrame [("Symbol"%string, [])])).

(** ... or only missing values. *)
Definition missing_symbols (index : string) (p : pstate)
  : pstate * result constituents :=
  (p, inr (ConstituentsFrame [("Symbol"%string, [None; None])])).

Definition listed_symbols (index : string) (p : pstate)
  : pstate * result constituents :=
  (p, inr (ConstituentsFrame
             [("Name"%string, [Some "Eni"; Some "Enel"; Some "Eni"]%string);
              ("Symbol"%string,
               [Some "ENI.MI"; Some "ENEL.MI"; None; Some "ENI.MI"]%string)])).

Definition full_row (d v : Z) : PriceRecord Z Z :=
  {| Date := d; Open := Some v; High := Some (v + 1); Low := Some (v - 1);
     Close := Some v; AdjClose := Some v; Volume := Some 1000 |}.

Definition gap_row (d : Z) : PriceRecord Z Z :=
  {| Date := d; Open := None; High := None; Low := None;
     Close := None; AdjClose := None; Volume := None |}.

(** [df[t]] on a frame given by its per-ticker columns: a [KeyError] for a
    ticker that has none. *)
Definition getitem_of (cols : list (string * list (PriceRecord Z Z)))
    (t : string) : result (list (PriceRecord Z Z)) :=
  match find (fun c => String.eqb (fst c) t) cols with
  | Some c => inr (snd c)
  | None => inl (PyError "KeyError" ("'" ++ t ++ "'"))
  end.

Definition eni_isp : list (string * list (PriceRecord Z Z)) :=
  [("ENI.MI"%string, [full_row 1 14; gap_row 2; full_row 3 15]);
   ("ISP.MI"%string, [full_row 1 3; full_row 2 4])].

(** Every call raises. *)
Definition always_raises (tickers : list string) (period interval : string)
    (p : pstate) : pstate * result (DataFrame Z Z) :=
  (p, inl (PyError "YFRateLimitError" "Too Many Requests. Rate limited.")).

(** Every call answers with the per-ticker frame [eni_isp]. *)
Definition keyed (tickers : list string) (period interval : string)
    (p : pstate) : pstate * result (DataFrame Z Z) :=
  (p, inr (MultiIndexFrame (getitem_of eni_isp))).

(** Every call answers with a per-ticker frame that has no column. *)
Definition keyed_without_columns (tickers : list string)
    (period interval : string) (p : pstate)
  : pstate * result (DataFrame Z Z) :=
  (p, inr (MultiIndexFrame (getitem_of []))).

(** A flat frame for one ticker, a per-ticker frame otherwise. *)
Definition by_shape (tickers : list string) (period interval : string)
    (p : pstate) : pstate * result (DataFrame Z Z) :=
  match tickers with
  | [_] => (p, inr (FlatFrame [full_row 1 14; gap_row 2; full_row 3 15]))
  | _ => (p, inr (MultiIndexFrame (getitem_of eni_isp)))
  end.

(** The provider state counts the calls; the second call raises, the
    others answer with [eni_isp]. *)
Definition second_call_raises (tickers : list string)
    (period interval : string) (p : nat)
  : nat * result (DataFrame Z Z) :=
  (S p,
   if Nat.eqb p 1 then inl (PyError "ConnectionError" "connection reset")
   else inr (MultiIndexFrame (getitem_of eni_isp))).

(** Every call for a batch that holds [bad] raises. *)
Definition fails_on (bad : string) (tickers : list string)
    (period interval : string) (p : pstate)
  : pstate * result (DataFrame Z Z) :=
  if existsb (String.eqb bad) tickers
  then (p, inl (PyError "ConnectionError" "connection reset"))
  else (p, inr (MultiIndexFrame (getitem_of eni_isp))).

(** Every call answers with one flat frame, whatever the batch. *)
Definition always_flat (tickers : list string) (period interval : string)
    (p : pstate) : pstate * result (DataFrame Z Z) :=
  (p, inr (FlatFrame [full_row 1 14; gap_row 2; full_row 3 15])).

Definition no_summary (df : TickerTable Z Z) : unit := tt.

(** [str()] of a list of strings that need no escape. *)
Definition str_list (l : list string) : string :=
  ("[" ++ String.concat ", " (map (fun t => "'" ++ t ++ "'") l) ++ "]")%string.

End Sample.

(** * Properties *)

(** ** The batch plan *)

Section BatchPlan.
Variable A : Type.
Implicit Types (l : list A) (b k m : nat) (B : Z).

Lemma firstn_plus b m l :
  firstn (b + m) l = firstn b l ++ firstn m (skipn b l).
Proof.
  revert l; induction b as [|b IH]; intros l; simpl; [reflexivity|].
  destruct l as [|x l]; simpl.
  - now rewrite firstn_nil.
  - now rewrite IH.
Qed.

Lemma concat_chunks b m : forall s l,
  List.concat (map (chunk b l) (seq s m)) = firstn (m * b) (skipn (s * b) l).
Proof.
  induction m as [|m IH]; intros s l; simpl; [reflexivity|].
  rewrite IH, firstn_plus, skipn_skipn. unfold chunk.
  reflexivity.
Qed.

Lemma length_chunk b l k :
  List.length (chunk b l k) = Nat.min b (List.length l - k * b).
Proof. unfold chunk. now rewrite length_firstn, length_skipn. Qed.

(** A slice of the plan that starts inside the list is the chunk. *)
Lemma slice_chunk l k B :
  0 < B -> (k * Z.to_nat B < List.length l)%nat ->
  Py.slice l (Z.of_nat k * B) (Z.of_nat k * B + B) = chunk (Z.to_nat B) l k.
Proof.
  intros HB Hk. unfold Py.slice, Py.adjust_index, Py.len, chunk.
  set (b := Z.to_nat B) in *.
  assert (EB : B = Z.of_nat b) by (subst b; lia).
  assert (E1 : (Z.of_nat k * B <? 0) = false) by (apply Z.ltb_ge; nia).
  assert (E2 : (Z.of_nat k * B + B <? 0) = false) by (apply Z.ltb_ge; nia).
  rewrite E1, E2.
  replace (Z.to_nat (Z.min (Z.of_nat k * B) (Z.of_nat (List.length l))))
    with (k * b)%nat by nia.
  set (tl := skipn (k * b) l).
  assert (Htl : List.length tl = (List.length l - k * b)%nat)
    by (subst tl; apply length_skipn).
  destruct (Z_le_gt_dec (Z.of_nat k * B + B) (Z.of_nat (List.length l)))
    as [Hle|Hgt].
  - f_equal. nia.
  - rewrite (firstn_all2 (n := b)) by nia.
    apply firstn_all2. nia.
Qed.

(** The plan for a positive batch size, in closed form. *)
Lemma batches_chunks l B :
  0 < B ->
  batches l B =
    inr (map (chunk (Z.to_nat B) l)
             (seq 0 (Z.to_nat (Py.range_length 0 (Py.len l) B)))).
Proof.
  intros HB. unfold batches, Py.range.
  replace (B =? 0) with false by (symmetry; apply Z.eqb_neq; lia).
  rewrite map_map. f_equal.
  apply map_ext_in. intros k Hk. apply in_seq in Hk.
  replace (0 + Z.of_nat k * B) with (Z.of_nat k * B) by lia.
  apply slice_chunk; [assumption|].
  revert Hk. unfold Py.range_length, Py.len.
  replace (0 <? B) with true by (symmetry; apply Z.ltb_lt; lia).
  destruct (0 <? Z.of_nat (List.length l)) eqn:E; [|simpl; lia].
  apply Z.ltb_lt in E. intros Hk.
  assert (H1 : Z.of_nat k <= (Z.of_nat (List.length l) - 0 - 1) / B) by lia.
  assert (H2 : B * ((Z.of_nat (List.length l) - 0 - 1) / B)
               <= Z.of_nat (List.length l) - 0 - 1)
    by (apply Z.mul_div_le; lia).
  nia.
Qed.

(** How many batches there are: enough to cover the list, and the last
    one starts inside it. *)
Lemma range_length_bounds l B :
  0 < B ->
  let m := Z.to_nat (Py.range_length 0 (Py.len l) B) in
  (List.length l <= m * Z.to_nat B)%nat
  /\ (forall k, (k < m)%nat -> (k * Z.to_nat B < List.length l)%nat).
Proof.
  intros HB. unfold Py.range_length, Py.len.
  replace (0 <? B) with true by (symmetry; apply Z.ltb_lt; lia).
  destruct (0 <? Z.of_nat (List.length l)) eqn:E.
  - apply Z.ltb_lt in E.
    set (n := Z.of_nat (List.length l)) in *.
    assert (H2 : B * ((n - 0 - 1) / B) <= n - 0 - 1)
      by (apply Z.mul_div_le; lia).
    assert (H3 : n - 0 - 1 < B * Z.succ ((n - 0 - 1) / B))
      by (apply Z.mul_succ_div_gt; lia).
    assert (H4 : 0 <= (n - 0 - 1) / B) by (apply Z.div_pos; lia).
    cbv zeta. split; [nia|]. intros k Hk. nia.
  - apply Z.ltb_ge in E. simpl. split; [lia|]. intros k Hk. lia.
Qed.

Lemma nth_plan b l m k :
  (k < m)%nat -> nth k (map (chunk b l) (seq 0 m)) [] = chunk b l k.
Proof.
  intros Hk.
  rewrite (nth_indep _ [] (chunk b l 0%nat))
    by (now rewrite length_map, length_seq).
  rewrite map_nth, seq_nth by assumption. reflexivity.
Qed.

(** C2. For every ticker list [T] and batch size [B > 0] the batch plan is
    an ordered partition of [T]: the batches concatenated in order give [T]
    back, every batch but the last has length [B], the last batch has a
    length between 1 and [B], and no batch is empty (for an empty [T] there
    is no batch at all). *)
Theorem C2_batches_ordered_partition (T : list A) (B : Z) :
  0 < B ->
  exists plan,
    batches T B = inr plan
    /\ List.concat plan = T
    /\ (forall k, (S k < List.length plan)%nat -> Py.len (nth k plan []) = B)
    /\ (plan <> [] -> 1 <= Py.len (last plan []) <= B)
    /\ (forall batch, In batch plan -> batch <> [])
    /\ (plan = [] <-> T = []).
Proof.
  intros HB.
  pose proof (range_length_bounds T HB) as [Hcover Hinside].
  set (m := Z.to_nat (Py.range_length 0 (Py.len T) B)) in *.
  set (b := Z.to_nat B) in *.
  exists (map (chunk b T) (seq 0 m)).
  split; [now apply batches_chunks|].
  split; [rewrite concat_chunks; simpl; now apply firstn_all2|].
  split.
  { intros k. rewrite length_map, length_seq. intros Hk.
    rewrite nth_plan by lia. unfold Py.len. rewrite length_chunk.
    specialize (Hinside (S k) Hk). simpl in Hinside. lia. }
  split.
  { destruct m as [|m'] eqn:Em; [intros H; now elim H|]. intros _.
    rewrite seq_S, map_app. simpl. rewrite last_last.
    unfold Py.len. rewrite length_chunk.
    specialize (Hinside m' (Nat.lt_succ_diag_r m')). lia. }
  split.
  { intros batch Hin. apply in_map_iff in Hin. destruct Hin as [k [<- Hk]].
    apply in_seq in Hk. intros Hnil.
    apply (f_equal (@List.length A)) in Hnil. rewrite length_chunk in Hnil.
    specialize (Hinside k (proj2 Hk)). simpl in Hnil. lia. }
  split.
  - intros Hnil. apply (f_equal (@List.length (list A))) in Hnil.
    rewrite length_map, length_seq in Hnil. simpl in Hnil.
    rewrite Hnil in Hcover. destruct T; [reflexivity|simpl in Hcover; lia].
  - intros ->. destruct m as [|m']; [reflexivity|].
    specialize (Hinside 0%nat (Nat.lt_0_succ m')). simpl in Hinside. lia.
Qed.

(** C7, as the code has it. A batch size of 0 makes [range] raise a
    [ValueError], so no batch list is produced; a negative batch size
    raises nothing: [range] is empty and so is the batch list. *)
Theorem C7_batches_nonpositive_size (T : list A) (B : Z) :
  B <= 0 ->
  batches T B =
    if B =? 0 then inl (ValueError "range() arg 3 must not be zero")
    else inr [].
Proof.
  intros HB. unfold batches, Py.range.
  destruct (B =? 0) eqn:E; [reflexivity|].
  apply Z.eqb_neq in E. unfold Py.range_length, Py.len.
  replace (0 <? B) with false by (symmetry; apply Z.ltb_ge; lia).
  replace (Z.of_nat (List.length T) <? 0) with false
    by (symmetry; apply Z.ltb_ge; lia).
  reflexivity.
Qed.

(** X1. For a batch size [B > 0] the plan has ceil(len(T) / B) batches,
    and its [k]-th batch is the slice of [T] that skips [k * B] tickers and
    takes the next [B]. *)
Theorem X1_batches_count_and_slices (T : list A) (B : Z) :
  0 < B ->
  exists plan,
    batches T B = inr plan
    /\ Py.len plan = (Py.len T + B - 1) / B
    /\ forall k, (k < List.length plan)%nat ->
         nth k plan [] = firstn (Z.to_nat B) (skipn (k * Z.to_nat B) T).
Proof.
  intros HB. eexists. split; [now apply batches_chunks|].
  split.
  - unfold Py.len at 1. rewrite length_map, length_seq.
    unfold Py.range_length, Py.len.
    replace (0 <? B) with true by (symmetry; apply Z.ltb_lt; lia).
    set (n := Z.of_nat (List.length T)).
    assert (Hn : 0 <= n) by (subst n; lia).
    destruct (0 <? n) eqn:E.
    + apply Z.ltb_lt in E.
      replace (n + B - 1) with (n - 0 - 1 + 1 * B) by lia.
      rewrite Z.div_add by lia.
      assert (0 <= (n - 0 - 1) / B) by (apply Z.div_pos; lia). lia.
    + apply Z.ltb_ge in E. replace n with 0 by lia.
      simpl. rewrite Z.div_small; lia.
  - intros k. rewrite length_map, length_seq. intros Hk.
    now rewrite nth_plan.
Qed.

(** X2. A batch size that is at least the number of tickers gives one
    batch, the whole list. *)
Theorem X2_batches_one_batch (T : list A) (B : Z) :
  T <> [] -> Py.len T <= B -> batches T B = inr [T].
Proof.
  intros Hne Hle.
  assert (Hpos : 0 < Py.len T)
    by (destruct T; [now elim Hne|unfold Py.len; simpl; lia]).
  rewrite batches_chunks by lia.
  unfold Py.range_length.
  replace (0 <? B) with true by (symmetry; apply Z.ltb_lt; lia).
  replace (0 <? Py.len T) with true by (symmetry; apply Z.ltb_lt; lia).
  rewrite Z.div_small by lia. simpl. unfold chunk. simpl.
  rewrite firstn_all2; [reflexivity|]. unfold Py.len in Hle. lia.
Qed.

Lemma chunk_one_cons (x : A) l k : chunk 1 (x :: l) (S k) = chunk 1 l k.
Proof. unfold chunk. reflexivity. Qed.

Lemma chunks_of_one l :
  map (chunk 1 l) (seq 0 (List.length l)) = map (fun t => [t]) l.
Proof.
  induction l as [|x l IH]; [reflexivity|].
  simpl List.length. rewrite <- cons_seq, <- seq_shift. simpl map at 1.
  rewrite map_map. simpl. f_equal.
  rewrite <- IH. apply map_ext. intros k. apply chunk_one_cons.
Qed.

(** X3. With a batch size of 1 every ticker is a batch of its own, in the
    order of the list. *)
Theorem X3_batches_of_one (T : list A) :
  batches T 1 = inr (map (fun t => [t]) T).
Proof.
  rewrite batches_chunks by lia. f_equal.
  replace (Z.to_nat (Py.range_length 0 (Py.len T) 1)) with (List.length T).
  - apply chunks_of_one.
  - unfold Py.range_length, Py.len.
    change (0 <? 1) with true. cbv iota.
    destruct (0 <? Z.of_nat (List.length T)) eqn:E.
    + rewrite Z.div_1_r. lia.
    + apply Z.ltb_ge in E. lia.
Qed.

(** A batch holds tickers of the list only, for every batch size. *)
Lemma slice_incl l lo hi x : In x (Py.slice l lo hi) -> In x l.
Proof.
  unfold Py.slice. intros H.
  set (a := Z.to_nat (Py.adjust_index (Py.len l) lo)) in *.
  set (n := Z.to_nat _) in H.
  rewrite <- (firstn_skipn a l). apply in_or_app. right.
  rewrite <- (firstn_skipn n (skipn a l)). apply in_or_app. now left.
Qed.

Lemma batches_incl l B plan batch x :
  batches l B = inr plan -> In batch plan -> In x batch -> In x l.
Proof.
  unfold batches. destruct (Py.range 0 (Py.len l) B) as [e|starts];
    [discriminate|].
  intros H Hb Hx. inversion H; subst.
  apply in_map_iff in Hb. destruct Hb as [i [<- _]].
  now apply slice_incl in Hx.
Qed.

End BatchPlan.

(** ** File names *)

(** Replacing a character keeps the length of the string, leaves no
    occurrence of the replaced character when the two differ, and keeps
    every other character in its place. *)
Lemma replace_char_spec (old new : ascii) (s : string) :
  String.length (Py.replace_char old new s) = String.length s
  /\ (old <> new ->
      forall i, String.get i (Py.replace_char old new s) <> Some old)
  /\ (forall i c, String.get i s = Some c ->
        String.get i (Py.replace_char old new s)
        = Some (if Ascii.eqb c old then new else c)).
Proof.
  induction s as [|c r [IHlen [IHnone IHkeep]]]; simpl.
  - repeat split; discriminate.
  - split; [now rewrite IHlen|]. split.
    + intros Hne i. destruct i as [|i]; [|now apply IHnone].
      destruct (Ascii.eqb_spec c old) as [->|Hc]; intros H; inversion H; congruence.
    + intros i c' Hget. destruct i as [|i]; [|now apply IHkeep].
      inversion Hget; subst. reflexivity.
Qed.

(** ** The retry policy *)

Lemma wait_exponential_clamped (k : Z) :
  5 <= Tenacity.wait_exponential 2 5 120 k <= 120.
Proof. unfold Tenacity.wait_exponential. lia. Qed.

Example wait_exponential_first_waits :
  map (Tenacity.wait_exponential 2 5 120) [1; 2; 3; 4; 5; 6; 7; 8]
  = [5; 5; 8; 16; 32; 64; 120; 120].
Proof. reflexivity. Qed.

(** X17. The waits of the policy of [download_batch]: each lies between
    5 and 120, a later attempt never waits less than an earlier one, and
    from the seventh failed attempt on the wait is 120. *)
Theorem X17_wait_exponential_bounded_monotone :
  (forall k, 5 <= Tenacity.wait_exponential 2 5 120 k <= 120)
  /\ (forall k1 k2, k1 <= k2 ->
        Tenacity.wait_exponential 2 5 120 k1
        <= Tenacity.wait_exponential 2 5 120 k2)
  /\ (forall k, 7 <= k -> Tenacity.wait_exponential 2 5 120 k = 120).
Proof.
  unfold Tenacity.wait_exponential. split; [intros k; lia|]. split.
  - intros k1 k2 Hk.
    assert (H : 2 ^ (k1 - 1) <= 2 ^ (k2 - 1)).
    { destruct (Z_lt_le_dec (k1 - 1) 0) as [Hneg|Hpos].
      - rewrite (Z.pow_neg_r 2 (k1 - 1)) by assumption.
        apply Z.pow_nonneg. lia.
      - apply Z.pow_le_mono_r; lia. }
    lia.
  - intros k Hk.
    assert (H : 2 ^ 6 <= 2 ^ (k - 1)) by (apply Z.pow_le_mono_r; lia).
    change (2 ^ 6) with 64 in H. lia.
Qed.

Section RetryingFacts.
Variables W A : Type.
Variable fn : W -> W * result A.
Variable sleep : Z -> W -> W.
Variable wait : Z -> Z.

Lemma attempt_returns remaining n w w1 v :
  fn w = (w1, inr v) ->
  Tenacity.attempt fn sleep wait remaining n w = (w1, inr v).
Proof. intros H. destruct remaining; simpl; now rewrite H. Qed.

Lemma attempt_retries remaining n w w1 e :
  fn w = (w1, inl e) ->
  Tenacity.attempt fn sleep wait (S remaining) n w
  = Tenacity.attempt fn sleep wait remaining (n + 1) (sleep (wait n) w1).
Proof. intros H. simpl. now rewrite H. Qed.

Lemma attempt_gives_up n w w1 e :
  fn w = (w1, inl e) ->
  Tenacity.attempt fn sleep wait 0 n w = (w1, inl (RetryError e)).
Proof. intros H. simpl. now rewrite H. Qed.

(** Whatever [fn] does, the loop ends with a result or a [RetryError]. *)
Lemma attempt_outcome remaining : forall n w,
  exists w', (exists v, Tenacity.attempt fn sleep wait remaining n w = (w', inr v))
          \/ (exists e, Tenacity.attempt fn sleep wait remaining n w
                        = (w', inl (RetryError e))).
Proof.
  induction remaining as [|k IH]; intros n w; simpl;
    destruct (fn w) as [w1 [e|v]]; eauto.
Qed.

End RetryingFacts.

(** ** Columns of symbols *)

Lemma existsb_eqb_In (x : string) (seen : list string) :
  existsb (String.eqb x) seen = true <-> In x seen.
Proof.
  rewrite existsb_exists. split.
  - intros [y [Hin Heq]]. apply String.eqb_eq in Heq. now subst.
  - intros Hin. exists x. split; [assumption|apply String.eqb_refl].
Qed.

Lemma In_unique_from (s : list string) : forall seen x,
  In x (unique_from seen s) <-> In x s /\ ~ In x seen.
Proof.
  induction s as [|y r IH]; intros seen x; simpl; [tauto|].
  destruct (existsb (String.eqb y) seen) eqn:E.
  - apply existsb_eqb_In in E. rewrite IH. split.
    + tauto.
    + intros [[->|Hin] Hn]; [contradiction|tauto].
  - assert (Hy : ~ In y seen)
      by (intros Hin; apply existsb_eqb_In in Hin; congruence).
    simpl. rewrite IH. simpl. split.
    + intros [->|[Hin Hn]]; [tauto|]. split; [tauto|]. intros H. apply Hn. now right.
    + intros [[->|Hin] Hn]; [now left|].
      destruct (String.eqb_spec y x) as [->|Hneq]; [now left|].
      right. split; [assumption|]. intros [H|H]; [congruence|contradiction].
Qed.

Lemma NoDup_unique_from (s : list string) : forall seen,
  NoDup (unique_from seen s).
Proof.
  induction s as [|y r IH]; intros seen; simpl; [constructor|].
  destruct (existsb (String.eqb y) seen); [apply IH|].
  constructor; [|apply IH].
  rewrite In_unique_from. simpl. tauto.
Qed.

Lemma In_series_dropna (col : list (option string)) x :
  In x (series_dropna col) <-> In (Some x) col.
Proof.
  unfold series_dropna. rewrite in_flat_map. split.
  - intros [[y|] [Hin Hx]]; simpl in Hx; [|contradiction].
    destruct Hx as [->|[]]. assumption.
  - intros Hin. exists (Some x). split; [assumption|now left].
Qed.

Lemma has_column_filter name (cols : list (string * list (option string))) :
  has_column name cols = true
  <-> filter (fun c => String.eqb (fst c) name) cols <> [].
Proof.
  unfold has_column. induction cols as [|c cols IH]; simpl.
  - split; [discriminate|intros H; now elim H].
  - destruct (String.eqb (fst c) name); simpl; [|exact IH].
    split; [discriminate|reflexivity].
Qed.

(** ** Tables *)

Lemma dropna_idempotent (date price : Type) (df : list (PriceRecord date price)) :
  dropna (dropna df) = dropna df.
Proof.
  unfold dropna. induction df as [|r df IH]; simpl; [reflexivity|].
  destruct (negb (any_na r)) eqn:E; simpl; [rewrite E|]; now rewrite ?IH.
Qed.

Lemma dropna_no_gap (date price : Type) (df : list (PriceRecord date price)) :
  Forall (fun r => any_na r = false) (dropna df).
Proof.
  unfold dropna. apply Forall_forall. intros r Hin.
  apply filter_In in Hin. now apply negb_true_iff.
Qed.

Lemma set_ticker_rows (date price : Type) t
    (dft : list (PriceRecord date price)) :
  Forall (fun row => Ticker row = t /\ any_na (quote row) = false)
         (set_ticker t (dropna dft)).
Proof.
  unfold set_ticker. apply Forall_forall. intros row Hrow.
  apply in_map_iff in Hrow. destruct Hrow as [r [<- Hr]]. simpl.
  split; [reflexivity|].
  unfold dropna in Hr. apply filter_In in Hr.
  now apply negb_true_iff.
Qed.

(** ** One attempt of [download_batch] *)

Section ScraperFacts.
Variables date price pstate : Type.
Variable yf_constituents : string -> pstate -> pstate * result constituents.
Variable yf_download :
  list string -> string -> string -> pstate ->
  pstate * result (DataFrame date price).
Variable repr_future : exn -> string.
Variable summary : Type.
Variable agg_close : TickerTable date price -> summary.

Local Abbreviation once := (download_batch_once yf_download repr_future).
Local Abbreviation fetch := (download_batch yf_download repr_future).
Local Abbreviation run := (download_all yf_download repr_future).
Local Abbreviation history := (outcomes yf_download repr_future).

Ltac unfold_script :=
  unfold download_batch_once, get_index_constituents, constituents_query,
    download, called, try_except, bind, lift, ret, raise.

Lemma once_raises batch period interval w p e :
  yf_download batch period interval (provider w) = (p, inl e) ->
  once batch period interval w = (called batch period interval p [] w, inl e).
Proof.
  intros H. unfold_script.
  rewrite H, app_nil_r. destruct (rate_limited repr_future e); reflexivity.
Qed.

Lemma extract_each_spec (getitem : string -> result (list (PriceRecord date price)))
    (tickers : list string) :
  forall results (w : world pstate),
    extract_each getitem tickers results w
    = ({| provider := provider w;
          errors_log := errors_log w ++ extraction_errors getitem tickers;
          events := events w |},
       inr (results ++ extracted getitem tickers)).
Proof.
  induction tickers as [|t rest IH]; intros results w; simpl.
  - unfold ret. rewrite !app_nil_r. now destruct w.
  - unfold bind, try_except, lift, log, ret.
    destruct (getitem t) as [e|dft]; rewrite IH; simpl;
      now rewrite <- ?app_assoc.
Qed.

Lemma once_multi batch period interval w p getitem :
  yf_download batch period interval (provider w)
  = (p, inr (MultiIndexFrame getitem)) ->
  once batch period interval w
  = (called batch period interval p (extraction_errors getitem batch) w,
     inr (extracted getitem batch)).
Proof.
  intros H. unfold_script.
  rewrite H, extract_each_spec. reflexivity.
Qed.

Lemma once_flat batch period interval w p rows :
  yf_download batch period interval (provider w) = (p, inr (FlatFrame rows)) ->
  once batch period interval w
  = (called batch period interval p [] w,
     match batch with
     | t :: _ => inr [set_ticker t (dropna rows)]
     | [] => inl (IndexError "list index out of range")
     end).
Proof.
  intros H. unfold_script.
  rewrite H, app_nil_r. destruct batch as [|t rest].
  - destruct (rate_limited repr_future _); reflexivity.
  - reflexivity.
Qed.

Lemma batch_entries_extraction_errors
    (getitem : string -> result (list (PriceRecord date price))) tickers :
  batch_entries (extraction_errors getitem tickers) = [].
Proof.
  induction tickers as [|t rest IH]; simpl; [reflexivity|].
  destruct (getitem t); simpl; assumption.
Qed.

(** An attempt calls the provider once and writes ticker lines only. *)
Lemma once_effects batch period interval w :
  exists p lines r,
    once batch period interval w = (called batch period interval p lines w, r)
    /\ batch_entries lines = [].
Proof.
  destruct (yf_download batch period interval (provider w)) as [p [e|df]] eqn:H.
  - exists p, [], (inl e). split; [now apply once_raises|reflexivity].
  - destruct df as [getitem|rows].
    + exists p, (extraction_errors getitem batch), (inr (extracted getitem batch)).
      split; [apply once_multi; exact H|].
      apply batch_entries_extraction_errors.
    + eexists p, [], _. split; [apply once_flat; exact H|reflexivity].
Qed.

(** ** [download_batch] under its retry policy *)

(** C1. When the provider raises on every call for a batch,
    [download_batch] calls it 5 times and no more, sleeps between the calls
    for the waits of the multiplier-2 exponential sequence clamped to
    [5, 120] (5, 5, 8 and 16), and then raises: the failure of the fifth
    call reaches the caller inside a [RetryError]. *)
Theorem C1_download_batch_retries_then_raises batch period interval w :
  (forall p, exists p' e, yf_download batch period interval p = (p', inl e)) ->
  exists w' e new,
    fetch batch period interval w = (w', inl (RetryError e))
    /\ (exists p, yf_download batch period interval p = (provider w', inl e))
    /\ events w' = events w ++ new
    /\ List.length (filter is_download new) = 5%nat
    /\ Forall (fun ev => is_download ev = true ->
                         ev = Download batch period interval) new
    /\ sleeps new
       = map (fun k => Z.max 5 (Z.min (2 * 2 ^ (k - 1)) 120)) [1; 2; 3; 4]
    /\ Forall (fun d => 5 <= d <= 120) (sleeps new)
    /\ errors_log w' = errors_log w.
Proof.
  intros Hraise.
  unfold download_batch, Tenacity.retry.
  change (5 - 1)%nat with 4%nat.
  set (D := Download batch period interval).
  destruct (Hraise (provider w)) as (p1 & e1 & H1).
  erewrite attempt_retries by (apply once_raises; exact H1).
  set (w1 := emit _ _).
  destruct (Hraise (provider w1)) as (p2 & e2 & H2).
  erewrite attempt_retries by (apply once_raises; exact H2).
  set (w2 := emit _ _).
  destruct (Hraise (provider w2)) as (p3 & e3 & H3).
  erewrite attempt_retries by (apply once_raises; exact H3).
  set (w3 := emit _ _).
  destruct (Hraise (provider w3)) as (p4 & e4 & H4).
  erewrite attempt_retries by (apply once_raises; exact H4).
  set (w4 := emit _ _).
  destruct (Hraise (provider w4)) as (p5 & e5 & H5).
  erewrite attempt_gives_up by (apply once_raises; exact H5).
  exists (called batch period interval p5 [] w4), e5,
    [D; Sleep 5; D; Sleep 5; D; Sleep 8; D; Sleep 16; D].
  split; [reflexivity|].
  split; [exists (provider w4); exact H5|].
  split; [subst w4 w3 w2 w1; simpl; rewrite <- !app_assoc; reflexivity|].
  split; [reflexivity|].
  split.
  { repeat (apply Forall_cons;
            [intros Hd; (reflexivity || discriminate Hd)|]).
    apply Forall_nil. }
  split; [reflexivity|].
  split; [simpl; repeat constructor; lia|].
  subst w4 w3 w2 w1. simpl. now rewrite !app_nil_r.
Qed.

(** A first attempt that returns ends [download_batch]: no retry. *)
Lemma fetch_first_success batch period interval w w' v :
  once batch period interval w = (w', inr v) ->
  fetch batch period interval w = (w', inr v).
Proof. intros H. unfold download_batch, Tenacity.retry. now apply attempt_returns. Qed.

(** What [download_batch] does to the state, whatever the provider does:
    it calls the provider for this batch, sleeps, and writes ticker lines
    only. *)
Lemma attempt_effects batch period interval remaining : forall n w,
  exists w' r evs lines,
    Tenacity.attempt (once batch period interval)
      (fun seconds => emit (Sleep seconds))
      (Tenacity.wait_exponential 2 5 120) remaining n w = (w', r)
    /\ events w' = events w ++ evs
    /\ In (Download batch period interval) evs
    /\ filter is_throttle evs = []
    /\ errors_log w' = errors_log w ++ lines
    /\ batch_entries lines = [].
Proof.
  induction remaining as [|k IH]; intros n w;
    destruct (once_effects batch period interval w) as (p & lines & r & Ho & Hl).
  - destruct r as [e|v].
    + erewrite attempt_gives_up by exact Ho.
      eexists _, _, [Download batch period interval], lines.
      repeat split; simpl; auto.
    + erewrite attempt_returns by exact Ho.
      eexists _, _, [Download batch period interval], lines.
      repeat split; simpl; auto.
  - destruct r as [e|v].
    + erewrite attempt_retries by exact Ho.
      set (w1 := emit _ _).
      destruct (IH (n + 1) w1) as (w' & r & evs & lines' & -> & He & Hin & Ht & Hlg & Hb).
      exists w', r,
        (Download batch period interval
           :: Sleep (Tenacity.wait_exponential 2 5 120 n) :: evs),
        (lines ++ lines').
      split; [reflexivity|].
      split; [rewrite He; subst w1; simpl; now rewrite <- !app_assoc|].
      split; [now left|].
      split; [simpl; exact Ht|].
      split; [rewrite Hlg; subst w1; simpl; now rewrite <- !app_assoc|].
      unfold batch_entries in *. now rewrite filter_app, Hl, Hb.
    + erewrite attempt_returns by exact Ho.
      eexists _, _, [Download batch period interval], lines.
      repeat split; simpl; auto.
Qed.

Lemma fetch_effects batch period interval w :
  exists w' r evs lines,
    fetch batch period interval w = (w', r)
    /\ events w' = events w ++ evs
    /\ In (Download batch period interval) evs
    /\ filter is_throttle evs = []
    /\ errors_log w' = errors_log w ++ lines
    /\ batch_entries lines = [].
Proof. apply attempt_effects. Qed.

(** The cap holds for every provider: between one and five calls. *)
Lemma attempt_calls_bounded batch period interval remaining : forall n w,
  exists evs,
    events (fst (Tenacity.attempt (once batch period interval)
                   (fun seconds => emit (Sleep seconds))
                   (Tenacity.wait_exponential 2 5 120) remaining n w))
    = events w ++ evs
    /\ (1 <= List.length (filter is_download evs) <= S remaining)%nat.
Proof.
  induction remaining as [|k IH]; intros n w;
    destruct (once_effects batch period interval w) as (p & lines & r & Ho & _).
  - exists [Download batch period interval].
    destruct r as [e|v];
      [erewrite attempt_gives_up by exact Ho
      |erewrite attempt_returns by exact Ho]; simpl; split; auto.
  - destruct r as [e|v].
    + erewrite attempt_retries by exact Ho.
      set (w1 := emit _ _).
      destruct (IH (n + 1) w1) as (evs & He & Hn).
      exists (Download batch period interval
                :: Sleep (Tenacity.wait_exponential 2 5 120 n) :: evs).
      split; [rewrite He; subst w1; simpl; now rewrite <- !app_assoc|].
      simpl. lia.
    + erewrite attempt_returns by exact Ho.
      exists [Download batch period interval]. simpl. split; [reflexivity|lia].
Qed.

Lemma fetch_calls_bounded batch period interval w :
  exists evs,
    events (fst (fetch batch period interval w)) = events w ++ evs
    /\ (1 <= List.length (filter is_download evs) <= 5)%nat.
Proof. apply attempt_calls_bounded. Qed.

(** ** The extraction loop *)

(** C5. In a per-ticker keyed response, when extraction fails for a
    ticker [t] of the batch, the line for [t] is appended to the error log,
    [t] gives no table, and the tickers before and after it are extracted
    all the same: every ticker of the batch whose extraction succeeds has
    its table in the result, and the batch does not fail. *)
Theorem C5_ticker_failure_is_logged_and_skipped
    batch period interval w p getitem pre t post e :
  yf_download batch period interval (provider w)
  = (p, inr (MultiIndexFrame getitem)) ->
  batch = pre ++ t :: post ->
  getitem t = inl e ->
  exists w' results,
    fetch batch period interval w = (w', inr results)
    /\ results = extracted getitem pre ++ extracted getitem post
    /\ errors_log w'
       = errors_log w ++ extraction_errors getitem pre
           ++ [ErroreTicker t e] ++ extraction_errors getitem post
    /\ (forall t' dft, In t' batch -> getitem t' = inr dft ->
                       In (set_ticker t' (dropna dft)) results)
    /\ events w' = events w ++ [Download batch period interval].
Proof.
  intros Hdl -> Ht.
  exists (called (pre ++ t :: post) period interval p
            (extraction_errors getitem (pre ++ t :: post)) w),
         (extracted getitem (pre ++ t :: post)).
  split; [apply fetch_first_success, once_multi, Hdl|].
  unfold extracted, extraction_errors. rewrite !flat_map_app. simpl.
  rewrite Ht. simpl.
  split; [reflexivity|].
  split; [reflexivity|].
  split; [|reflexivity].
  intros t' dft Hin Hok.
  rewrite <- flat_map_app. apply in_flat_map.
  exists t'. split.
  - apply in_app_or in Hin. apply in_or_app.
    destruct Hin as [Hin|[->|Hin]]; [now left| congruence | now right].
  - rewrite Hok. now left.
Qed.

(** C10. In a per-ticker keyed response, when extraction fails for every
    ticker of the batch, [download_batch] returns the empty list at its
    first attempt: one provider call, no sleep, one ticker line per ticker
    in the log and no batch line; the loop of [main] goes on with the rows
    it had. *)
Theorem C10_all_tickers_fail_batch_succeeds_empty
    batch period interval w p getitem :
  yf_download batch period interval (provider w)
  = (p, inr (MultiIndexFrame getitem)) ->
  (forall t, In t batch -> exists e, getitem t = inl e) ->
  exists w',
    fetch batch period interval w = (w', inr [])
    /\ events w' = events w ++ [Download batch period interval]
    /\ (exists lines, errors_log w' = errors_log w ++ lines
                      /\ List.length lines = List.length batch
                      /\ batch_entries lines = [])
    /\ (forall rest rows,
          run (batch :: rest) period interval rows w
          = run rest period interval rows (emit Throttle w')).
Proof.
  intros Hdl Hall.
  assert (Hnone : extracted getitem batch = []).
  { unfold extracted. clear Hdl. induction batch as [|t rest IH]; [reflexivity|].
    simpl. destruct (Hall t (or_introl eq_refl)) as [e ->]. simpl.
    apply IH. intros t' Hin. apply Hall. now right. }
  assert (Hlen : List.length (extraction_errors getitem batch) = List.length batch).
  { unfold extraction_errors. clear Hdl Hnone.
    induction batch as [|t rest IH]; [reflexivity|].
    simpl. destruct (Hall t (or_introl eq_refl)) as [e ->]. simpl.
    f_equal. apply IH. intros t' Hin. apply Hall. now right. }
  assert (Hfetch : fetch batch period interval w
                   = (called batch period interval p
                        (extraction_errors getitem batch) w, inr [])).
  { rewrite <- Hnone. apply fetch_first_success, once_multi, Hdl. }
  eexists. split; [exact Hfetch|].
  split; [reflexivity|].
  split.
  { eexists. split; [reflexivity|]. split; [exact Hlen|].
    apply batch_entries_extraction_errors. }
  intros rest rows. simpl. rewrite Hfetch, app_nil_r. reflexivity.
Qed.

(** C6, as the code has it. The flat branch is taken on the shape of the
    response, whatever the number of tickers of the batch: for a flat
    response [download_batch] returns, at its first attempt and with no line
    in the log, one table that holds the rows of the flat table that miss no
    value, in their order, each tagged with the first ticker of the batch,
    which is its only ticker when the batch has one. *)
Theorem C6_flat_response_filtered_and_tagged
    t rest period interval w p rows :
  yf_download (t :: rest) period interval (provider w)
  = (p, inr (FlatFrame rows)) ->
  exists w' tbl,
    fetch (t :: rest) period interval w = (w', inr [tbl])
    /\ map (@quote _ _) tbl = filter (fun r => negb (any_na r)) rows
    /\ Forall (fun row => Ticker row = t) tbl
    /\ Forall (fun row => any_na (quote row) = false) tbl
    /\ provider w' = p
    /\ errors_log w' = errors_log w
    /\ events w' = events w ++ [Download (t :: rest) period interval].
Proof.
  intros Hq.
  exists (called (t :: rest) period interval p [] w),
         (set_ticker t (dropna rows)).
  split; [apply fetch_first_success; now rewrite (once_flat _ Hq)|].
  split.
  { unfold set_ticker, dropna. rewrite map_map. simpl. apply map_id. }
  split.
  { eapply Forall_impl; [|apply set_ticker_rows]. intros row [H _]. exact H. }
  split.
  { eapply Forall_impl; [|apply set_ticker_rows]. intros row [_ H]. exact H. }
  split; [reflexivity|].
  split; [simpl; apply app_nil_r|reflexivity].
Qed.

(** ** The batch loop *)

(** A batch whose fetch fails adds its line to the log and nothing to the
    rows, and the loop goes on with the batches that follow. *)
Lemma run_failed_batch batch rest period interval rows w w' e :
  fetch batch period interval w = (w', inl e) ->
  run (batch :: rest) period interval rows w
  = run rest period interval rows
      (emit Throttle (fst (log (ErroreBatch batch e) w'))).
Proof. intros H. cbn [download_all]. now rewrite H. Qed.

Lemma run_fetched_batch batch rest period interval rows w w' batch_data :
  fetch batch period interval w = (w', inr batch_data) ->
  run (batch :: rest) period interval rows w
  = run rest period interval (rows ++ batch_data) (emit Throttle w').
Proof. intros H. simpl. now rewrite H. Qed.

(** C4. The loop of [main] attempts every batch, in order, whatever
    fails: each batch whose fetch fails after its retries leaves its
    [ErroreBatch] line in the error log and the loop goes on; the loop ends
    after one round (fetch, then pause) per batch, and returns the rows it
    had with the tables of the batches that succeeded appended in order. *)
Theorem C4_batch_failure_is_logged_and_run_continues
    batch_list period interval rows w :
  let hist := history batch_list period interval w in
  let w' := fst (run batch_list period interval rows w) in
  let rows' := snd (run batch_list period interval rows w) in
  map fst hist = batch_list
  /\ rows' = rows ++ tables_of hist
  /\ batch_entries (errors_log w')
     = batch_entries (errors_log w) ++ failures_of hist
  /\ exists evs,
       events w' = events w ++ evs
       /\ List.length (filter is_throttle evs) = List.length batch_list
       /\ forall batch, In batch batch_list ->
                        In (Download batch period interval) evs.
Proof.
  cbv zeta. revert rows w.
  induction batch_list as [|batch rest IH]; intros rows w.
  - simpl. rewrite !app_nil_r. repeat split.
    exists []. rewrite app_nil_r. repeat split. intros batch [].
  - destruct (fetch_effects batch period interval w)
      as (w1 & r & evs1 & lines & Hf & Hev & Hin & Hth & Hlg & Hbe).
    destruct r as [e|batch_data].
    + erewrite run_failed_batch by exact Hf. cbn [outcomes]. rewrite Hf.
      set (w2 := emit Throttle _).
      destruct (IH rows w2) as (Hm & Hr & Hl & evs & He & Hn & Hd).
      simpl. split; [now rewrite Hm|].
      split; [exact Hr|].
      split.
      { rewrite Hl. subst w2. simpl. rewrite Hlg.
        unfold batch_entries in *. rewrite !filter_app, Hbe. simpl.
        now rewrite <- !app_assoc. }
      exists (evs1 ++ Throttle :: evs).
      split; [rewrite He; subst w2; simpl; rewrite Hev;
              now rewrite <- !app_assoc|].
      split; [rewrite filter_app, Hth; simpl; now rewrite Hn|].
      intros b [<-|Hb]; apply in_or_app; [now left|].
      right. right. now apply Hd.
    + erewrite run_fetched_batch by exact Hf. cbn [outcomes]. rewrite Hf.
      set (w2 := emit Throttle _).
      destruct (IH (rows ++ batch_data) w2) as (Hm & Hr & Hl & evs & He & Hn & Hd).
      simpl. split; [now rewrite Hm|].
      split; [rewrite Hr; now rewrite <- app_assoc|].
      split.
      { rewrite Hl. subst w2. simpl. rewrite Hlg.
        unfold batch_entries in *. rewrite !filter_app, Hbe.
        now rewrite app_nil_r. }
      exists (evs1 ++ Throttle :: evs).
      split; [rewrite He; subst w2; simpl; rewrite Hev;
              now rewrite <- !app_assoc|].
      split; [rewrite filter_app, Hth; simpl; now rewrite Hn|].
      intros b [<-|Hb]; apply in_or_app; [now left|].
      right. right. now apply Hd.
Qed.

(** The text of the lines. *)
Lemma render_lines (str_list : list string -> string) t batch e :
  render repr_future str_list (ErroreTicker t e)
  = ("Errore " ++ t ++ ": " ++ str_exn repr_future e ++ newline)%string
  /\ render repr_future str_list (ErroreBatch batch e)
     = ("Errore batch " ++ str_list batch ++ ": "
        ++ str_exn repr_future e ++ newline)%string.
Proof. split; reflexivity. Qed.

(** ** The output stage *)

(** The combined file and the summary are written exactly when there is a
    table, empty or not. *)
Lemma save_outputs_summary period interval (rows : list (TickerTable date price)) :
  (exists piv, In {| name := "summary_stats.csv"; content := SummaryCsv piv |}
                  (save_outputs agg_close period interval rows))
  <-> rows <> [].
Proof.
  unfold save_outputs. split.
  - intros [piv Hin] ->. simpl in Hin. exact Hin.
  - intros Hne. destruct rows as [|df rest]; [now elim Hne|].
    eexists. apply in_or_app. right. right. left. reflexivity.
Qed.

(** C9. When the run has accumulated no table, the output stage writes
    nothing, neither the combined file nor the summary, and [main] returns
    without an error. *)
Theorem C9_no_rows_no_outputs
    index period interval batch_size w w1 tickers plan w2 :
  get_index_constituents yf_constituents index w = (w1, inr tickers) ->
  batches tickers batch_size = inr plan ->
  run plan period interval [] w1 = (w2, []) ->
  save_outputs agg_close period interval [] = []
  /\ main yf_constituents yf_download repr_future agg_close
       index period interval batch_size w
     = (w2, inr []).
Proof.
  intros Hc Hb Hr. split; [reflexivity|].
  unfold main, bind, lift. rewrite Hc, Hb, Hr. reflexivity.
Qed.

(** X14. The files written for a run that accumulated some table: one
    per table that has a row, in order, then the combined file with all the
    rows in order, then the summary of those rows.  A table without rows
    gets no file of its own but still counts as a table. *)
Theorem X14_save_outputs_files period interval
    (rows : list (TickerTable date price)) :
  rows <> [] ->
  exists files,
    save_outputs agg_close period interval rows
    = files
      ++ [{| name := "all_history.csv";
             content := HistoryCsv (List.concat rows) |};
          {| name := "summary_stats.csv";
             content := SummaryCsv (agg_close (List.concat rows)) |}]
    /\ map (@content _ _ _) files
       = map HistoryCsv
           (filter (fun df => match df with [] => false | _ => true end) rows).
Proof.
  intros Hne. exists (flat_map (@ticker_file _ _ summary period interval) rows). split.
  - unfold save_outputs. destruct rows; [now elim Hne|reflexivity].
  - clear Hne. induction rows as [|df rest IH]; [reflexivity|].
    simpl. rewrite map_app, IH. destruct df; reflexivity.
Qed.

(** X18. The file of a table that has a row is named after the ticker of
    its first row, with every dot of the ticker replaced by an underscore
    and every other character kept in place, followed by the period and the
    interval: the name has no dot from the ticker. *)
Theorem X18_ticker_file_name period interval
    (first : TickerRow date price) (more : TickerTable date price) :
  exists safe_ticker,
    @ticker_file _ _ summary period interval (first :: more)
    = [{| name := (safe_ticker ++ "_" ++ period ++ "_" ++ interval
                   ++ ".csv")%string;
          content := HistoryCsv (first :: more) |}]
    /\ String.length safe_ticker = String.length (Ticker first)
    /\ (forall i, String.get i safe_ticker <> Some "."%char)
    /\ (forall i c, String.get i (Ticker first) = Some c ->
          String.get i safe_ticker
          = Some (if Ascii.eqb c "." then "_"%char else c)).
Proof.
  exists (Py.replace_char "." "_" (Ticker first)).
  destruct (replace_char_spec "." "_" (Ticker first)) as (Hlen & Hnone & Hkeep).
  split; [reflexivity|]. split; [exact Hlen|]. split; [|exact Hkeep].
  apply Hnone. discriminate.
Qed.

(** ** The constituent resolver *)

(** [get_index_constituents] raises nothing, whatever the provider does. *)
Lemma get_index_constituents_returns index w :
  exists w' l, get_index_constituents yf_constituents index w = (w', inr l).
Proof.
  unfold_script.
  destruct (yf_constituents index (provider w)) as [p [e|[|cols]]]; eauto.
  destruct (has_column "Symbol" cols); eauto.
  destruct (symbols cols); eauto.
Qed.

(** It returns the six default tickers when the provider raises, gives
    something that is not a frame, or a frame without a [Symbol] column. *)
Lemma get_index_constituents_fallback index w p r :
  yf_constituents index (provider w) = (p, r) ->
  match r with
  | inl _ => True
  | inr NotADataFrame => True
  | inr (ConstituentsFrame cols) => has_column "Symbol" cols = false
  end ->
  exists w',
    get_index_constituents yf_constituents index w = (w', inr fallback)
    /\ fallback <> [].
Proof.
  intros Hq Hr.
  unfold_script.
  rewrite Hq. destruct r as [e|[|cols]].
  - eexists. split; [reflexivity|discriminate].
  - eexists. split; [reflexivity|discriminate].
  - rewrite Hr. eexists. split; [reflexivity|discriminate].
Qed.

Lemma unique_nil (s : list string) : unique s = [] -> s = [].
Proof. destruct s as [|x r]; [reflexivity|discriminate]. Qed.

(** The result is empty only when the provider gave a frame with one
    [Symbol] column that holds no value. *)
Lemma get_index_constituents_empty index w w' :
  get_index_constituents yf_constituents index w = (w', inr []) ->
  exists p cols col,
    yf_constituents index (provider w) = (p, inr (ConstituentsFrame cols))
    /\ filter (fun c => String.eqb (fst c) "Symbol") cols = [col]
    /\ series_dropna (snd col) = [].
Proof.
  unfold_script.
  destruct (yf_constituents index (provider w)) as [p [e|[|cols]]];
    try discriminate.
  destruct (has_column "Symbol" cols); [|discriminate].
  unfold symbols.
  destruct (filter (fun c => String.eqb (fst c) "Symbol") cols)
    as [|col [|col2 more]] eqn:Hf; try discriminate.
  intros H. injection H as _ Hu. apply unique_nil in Hu.
  exists p, cols, col. auto.
Qed.

(** *** More on the retry policy *)

Local Abbreviation retrying batch period interval :=
  (Tenacity.attempt (once batch period interval)
     (fun seconds => emit (Sleep seconds))
     (Tenacity.wait_exponential 2 5 120)).

Lemma waits_shift (n : Z) (j : nat) :
  Tenacity.wait_exponential 2 5 120 n
    :: map (fun i => Tenacity.wait_exponential 2 5 120 (n + 1 + Z.of_nat i))
           (seq 0 j)
  = map (fun i => Tenacity.wait_exponential 2 5 120 (n + Z.of_nat i))
        (seq 0 (S j)).
Proof.
  rewrite <- cons_seq, <- seq_shift, map_cons, map_map.
  f_equal; [f_equal; lia|].
  apply map_ext. intros i. f_equal. lia.
Qed.





(** A returned value is the value of the last attempt. *)
Lemma attempt_returned batch period interval remaining : forall n w w' v,
  retrying batch period interval remaining n w = (w', inr v) ->
  exists w0, once batch period interval w0 = (w', inr v).
Proof.
  induction remaining as [|k IH]; intros n w w' v;
    destruct (once batch period interval w) as [w1 [e|v1]] eqn:Ho.
  - erewrite attempt_gives_up by exact Ho. discriminate.
  - erewrite attempt_returns by exact Ho. intros H. inversion H; subst. eauto.
  - erewrite attempt_retries by exact Ho. apply IH.
  - erewrite attempt_returns by exact Ho. intros H. inversion H; subst. eauto.
Qed.

Lemma extracted_tables (getitem : string -> result (list (PriceRecord date price)))
    batch tbl :
  In tbl (extracted getitem batch) ->
  exists t dft, In t batch /\ tbl = set_ticker t (dropna dft).
Proof.
  unfold extracted. rewrite in_flat_map. intros [t [Hin Ht]].
  destruct (getitem t) as [e|dft]; [contradiction|].
  destruct Ht as [<-|[]]. eauto.
Qed.

Lemma length_extracted (getitem : string -> result (list (PriceRecord date price)))
    batch :
  (List.length (extracted getitem batch)
   + List.length (extraction_errors getitem batch))%nat
  = List.length batch.
Proof.
  unfold extracted, extraction_errors.
  induction batch as [|t rest IH]; [reflexivity|].
  simpl. rewrite !length_app.
  destruct (getitem t); simpl; lia.
Qed.

(** The tables of an attempt that returns. *)
Lemma once_tables batch period interval w0 w' tables :
  once batch period interval w0 = (w', inr tables) ->
  (List.length tables <= List.length batch)%nat
  /\ forall tbl, In tbl tables ->
       exists t dft, In t batch /\ tbl = set_ticker t (dropna dft).
Proof.
  intros Ho.
  destruct (yf_download batch period interval (provider w0))
    as [p [e|[getitem|rows]]] eqn:Hq.
  - rewrite (once_raises _ Hq) in Ho. discriminate.
  - rewrite (once_multi _ Hq) in Ho. inversion Ho; subst. split.
    + pose proof (length_extracted getitem batch). lia.
    + intros tbl. apply extracted_tables.
  - rewrite (once_flat _ Hq) in Ho. destruct batch as [|t rest];
      [discriminate|]. inversion Ho; subst. split; [simpl; lia|].
    intros tbl [<-|[]]. exists t, rows. split; [now left|reflexivity].
Qed.

(** X9. Every table that [download_batch] returns belongs to one ticker
    of the batch: all its rows bear that ticker and none of them misses a
    value; and there are no more tables than tickers. *)
Theorem X9_download_batch_tables batch period interval w w' tables :
  fetch batch period interval w = (w', inr tables) ->
  (List.length tables <= List.length batch)%nat
  /\ Forall (fun tbl =>
               exists t, In t batch
                 /\ Forall (fun row => Ticker row = t
                                       /\ any_na (quote row) = false) tbl)
            tables.
Proof.
  intros H. apply attempt_returned in H. destruct H as [w0 Ho].
  destruct (once_tables _ _ _ _ Ho) as [Hlen Htbl]. split; [exact Hlen|].
  apply Forall_forall. intros tbl Hin.
  destruct (Htbl tbl Hin) as (t & dft & Ht & ->).
  exists t. split; [exact Ht|apply set_ticker_rows].
Qed.

(** X10. A first provider call that raises costs a sleep of 5 and nothing
    else: when the attempt made after the sleep returns, [download_batch]
    returns what that attempt returns, in the state that attempt leaves. *)
Theorem X10_download_batch_recovers batch period interval w p1 e w2 tables :
  yf_download batch period interval (provider w) = (p1, inl e) ->
  once batch period interval
    (emit (Sleep 5) (called batch period interval p1 [] w))
  = (w2, inr tables) ->
  fetch batch period interval w = (w2, inr tables).
Proof.
  intros H1 H2.
  unfold download_batch, Tenacity.retry. change (5 - 1)%nat with 4%nat.
  erewrite attempt_retries by (apply once_raises; exact H1).
  change (Tenacity.wait_exponential 2 5 120 1) with 5.
  now apply attempt_returns.
Qed.

(** X11. On a per-ticker keyed response every ticker of the batch gives
    either one table or one line of the log: the tables and the new lines
    together are as many as the tickers, and no line is a batch line. *)
Theorem X11_keyed_response_table_or_line batch period interval w p getitem :
  yf_download batch period interval (provider w)
  = (p, inr (MultiIndexFrame getitem)) ->
  exists tables lines,
    fetch batch period interval w
    = (called batch period interval p lines w, inr tables)
    /\ (List.length tables + List.length lines)%nat = List.length batch
    /\ batch_entries lines = [].
Proof.
  intros Hq.
  exists (extracted getitem batch), (extraction_errors getitem batch).
  split; [apply fetch_first_success, once_multi, Hq|].
  split; [apply length_extracted|apply batch_entries_extraction_errors].
Qed.

(** X12. A flat response is given to the first ticker of the batch,
    however many tickers the batch has: the others get no table and no line
    in the log. *)
Theorem X12_flat_response_goes_to_first_ticker
    t rest period interval w p rows :
  yf_download (t :: rest) period interval (provider w)
  = (p, inr (FlatFrame rows)) ->
  fetch (t :: rest) period interval w
  = (called (t :: rest) period interval p [] w,
     inr [set_ticker t (dropna rows)]).
Proof.
  intros Hq. apply fetch_first_success. now rewrite (once_flat _ Hq).
Qed.

(** *** More on the batch loop *)

(** The whole trace of a call of [download_batch], with where the sleeps
    sit, and what it does to the log. *)
Lemma attempt_trace_exact batch period interval remaining : forall n w,
  exists j lines,
    (j <= remaining)%nat
    /\ events (fst (retrying batch period interval remaining n w))
       = events w
         ++ Download batch period interval
            :: flat_map (fun d => [Sleep d; Download batch period interval])
                 (map (fun i => Tenacity.wait_exponential 2 5 120
                                  (n + Z.of_nat i))
                      (seq 0 j))
    /\ errors_log (fst (retrying batch period interval remaining n w))
       = errors_log w ++ lines.
Proof.
  induction remaining as [|k IH]; intros n w;
    destruct (once_effects batch period interval w) as (p & lines & r & Ho & _).
  - exists 0%nat, lines.
    destruct r as [e|v];
      [erewrite attempt_gives_up by exact Ho
      |erewrite attempt_returns by exact Ho];
      simpl; repeat split; auto.
  - destruct r as [e|v].
    + erewrite attempt_retries by exact Ho.
      set (w1 := emit _ _).
      destruct (IH (n + 1) w1) as (j & lines' & Hj & He & Hl).
      exists (S j), (lines ++ lines').
      split; [lia|]. split.
      * rewrite He. subst w1. rewrite <- waits_shift. simpl.
        now rewrite <- !app_assoc.
      * rewrite Hl. subst w1. simpl. now rewrite <- !app_assoc.
    + erewrite attempt_returns by exact Ho.
      exists 0%nat, lines. simpl. repeat split; auto. lia.
Qed.

Lemma fetch_trace_exact batch period interval w :
  exists j lines,
    (j <= 4)%nat
    /\ events (fst (fetch batch period interval w))
       = events w
         ++ Download batch period interval
            :: flat_map (fun d => [Sleep d; Download batch period interval])
                 (firstn j [5; 5; 8; 16])
    /\ errors_log (fst (fetch batch period interval w))
       = errors_log w ++ lines.
Proof.
  destruct (attempt_trace_exact batch period interval 4 1 w)
    as (j & lines & Hj & He & Hl).
  exists j, lines. split; [exact Hj|]. split; [|exact Hl].
  unfold download_batch, Tenacity.retry. change (5 - 1)%nat with 4%nat.
  rewrite He. do 3 f_equal.
  do 5 (destruct j as [|j]; [reflexivity|]). lia.
Qed.

(** X13. The loop of [main] only adds: the rows it had, the log and the
    trace are kept and extended.  What it adds to the trace is one round per
    batch, in the order of the batches: a provider call for that batch,
    then up to four times a sleep (of 5, 5, 8, 16) followed by another call
    for that batch, then the pause; so each batch is called for at least
    once and at most five times. *)
Theorem X13_download_all_only_appends batch_list period interval :
  forall rows w,
  exists more lines rounds,
    snd (run batch_list period interval rows w) = rows ++ more
    /\ errors_log (fst (run batch_list period interval rows w))
       = errors_log w ++ lines
    /\ events (fst (run batch_list period interval rows w))
       = events w ++ List.concat (map (fun round => round ++ [Throttle]) rounds)
    /\ Forall2
         (fun batch round =>
            exists j,
              (j <= 4)%nat
              /\ round
                 = Download batch period interval
                   :: flat_map
                        (fun d => [Sleep d; Download batch period interval])
                        (firstn j [5; 5; 8; 16])
              /\ (1 <= List.length (filter is_download round) <= 5)%nat)
         batch_list rounds.
Proof.
  assert (Hcount : forall batch j round, (j <= 4)%nat ->
            round
            = Download batch period interval
              :: flat_map (fun d => [Sleep d; Download batch period interval])
                   (firstn j [5; 5; 8; 16]) ->
            (1 <= List.length (filter is_download round) <= 5)%nat).
  { intros batch j round Hj ->.
    do 5 (destruct j as [|j]; [simpl; lia|]). lia. }
  induction batch_list as [|batch rest IH]; intros rows w.
  - exists [], [], []. simpl. rewrite !app_nil_r. repeat split. constructor.
  - destruct (fetch_trace_exact batch period interval w)
      as (j & lines1 & Hj & Hev & Hlg).
    set (round := Download batch period interval :: flat_map _ _) in Hev.
    destruct (fetch batch period interval w) as [w1 [e|batch_data]] eqn:Hf;
      cbn [fst] in Hev, Hlg.
    + erewrite run_failed_batch by exact Hf.
      set (w2 := emit Throttle _).
      destruct (IH rows w2) as (more & lines & rounds & Hr & Hl & He & Hall).
      exists more, (lines1 ++ ErroreBatch batch e :: lines), (round :: rounds).
      split; [exact Hr|].
      split; [rewrite Hl; subst w2; simpl; rewrite Hlg;
              now rewrite <- !app_assoc|].
      split; [rewrite He; subst w2; cbn [emit events log fst map List.concat];
              rewrite Hev, <- !app_assoc; reflexivity|].
      constructor; [|exact Hall].
      exists j. split; [exact Hj|]. split; [reflexivity|].
      now apply (Hcount batch j).
    + erewrite run_fetched_batch by exact Hf.
      set (w2 := emit Throttle _).
      destruct (IH (rows ++ batch_data) w2)
        as (more & lines & rounds & Hr & Hl & He & Hall).
      exists (batch_data ++ more), (lines1 ++ lines), (round :: rounds).
      split; [rewrite Hr; now rewrite <- app_assoc|].
      split; [rewrite Hl; subst w2; simpl; rewrite Hlg;
              now rewrite <- !app_assoc|].
      split; [rewrite He; subst w2; cbn [emit events log fst map List.concat];
              rewrite Hev, <- !app_assoc; reflexivity|].
      constructor; [|exact Hall].
      exists j. split; [exact Hj|]. split; [reflexivity|].
      now apply (Hcount batch j).
Qed.


(** *** What the resolver returns *)

(** X4. [get_index_constituents] raises nothing, whatever the provider
    does, and it writes nothing: it queries the provider once and leaves the
    error log and the trace as they were. *)
Theorem X4_get_index_constituents_never_raises index w :
  exists p r l,
    yf_constituents index (provider w) = (p, r)
    /\ get_index_constituents yf_constituents index w
       = ({| provider := p; errors_log := errors_log w; events := events w |},
          inr l).
Proof.
  unfold_script.
  destruct (yf_constituents index (provider w)) as [p [e|[|cols]]];
    try (eexists _, _, _; split; reflexivity).
  destruct (has_column "Symbol" cols);
    [|eexists _, _, _; split; reflexivity].
  destruct (symbols cols); eexists _, _, _; split; reflexivity.
Qed.

(** X5. The six default tickers are returned whenever the provider does
    not give a frame with exactly one [Symbol] column: when it raises, gives
    another object, a frame without that column, or a frame with several. *)
Theorem X5_get_index_constituents_falls_back index w p r :
  yf_constituents index (provider w) = (p, r) ->
  (forall cols, r = inr (ConstituentsFrame cols) ->
     List.length (filter (fun c => String.eqb (fst c) "Symbol") cols) <> 1%nat) ->
  get_index_constituents yf_constituents index w
  = ({| provider := p; errors_log := errors_log w; events := events w |},
     inr ["ENI.MI"; "ENEL.MI"; "ISP.MI"; "UCG.MI"; "LDO.MI"; "STLAM.MI"]%string).
Proof.
  intros Hq Hr. unfold_script. rewrite Hq.
  destruct r as [e|[|cols]]; try reflexivity.
  specialize (Hr cols eq_refl).
  destruct (has_column "Symbol" cols) eqn:Hc; [|reflexivity].
  unfold symbols.
  destruct (filter (fun c => String.eqb (fst c) "Symbol") cols)
    as [|col [|col2 more]]; try reflexivity.
  now elim Hr.
Qed.

(** X6. When the provider gives a frame with one [Symbol] column, the
    result holds exactly the values of that column that are not missing,
    each once. *)
Theorem X6_get_index_constituents_lists_symbols index w p cols col :
  yf_constituents index (provider w) = (p, inr (ConstituentsFrame cols)) ->
  filter (fun c => String.eqb (fst c) "Symbol") cols = [col] ->
  exists l,
    get_index_constituents yf_constituents index w
    = ({| provider := p; errors_log := errors_log w; events := events w |},
       inr l)
    /\ NoDup l
    /\ forall x, In x l <-> In (Some x) (snd col).
Proof.
  intros Hq Hf. exists (unique (series_dropna (snd col))). split.
  - unfold get_index_constituents, constituents_query, try_except, bind,
      lift, ret.
    rewrite Hq.
    assert (Hc : has_column "Symbol" cols = true)
      by (apply has_column_filter; rewrite Hf; discriminate).
    rewrite Hc. unfold symbols. rewrite Hf. reflexivity.
  - split; [apply NoDup_unique_from|].
    intros x. unfold unique. rewrite In_unique_from, In_series_dropna.
    simpl. tauto.
Qed.

Lemma get_index_constituents_state index w :
  exists p l,
    get_index_constituents yf_constituents index w
    = ({| provider := p; errors_log := errors_log w; events := events w |},
       inr l).
Proof.
  unfold_script.
  destruct (yf_constituents index (provider w)) as [p [e|[|cols]]]; eauto.
  destruct (has_column "Symbol" cols); eauto.
  destruct (symbols cols); eauto.
Qed.

(** *** [main] as a whole *)

(** X16. With a batch size of 0 or less, [main] calls the provider for
    the constituents and for nothing else: no download, no line in the log,
    no file.  It raises the [ValueError] of [range] for 0 and returns
    normally for a negative size. *)
Theorem X16_main_nonpositive_batch_size index period interval batch_size w :
  batch_size <= 0 ->
  exists p,
    main yf_constituents yf_download repr_future agg_close
      index period interval batch_size w
    = ({| provider := p; errors_log := errors_log w; events := events w |},
       if batch_size =? 0
       then inl (ValueError "range() arg 3 must not be zero")
       else inr []).
Proof.
  intros HB. unfold main, bind, lift.
  destruct (get_index_constituents_state index w) as (p & l & ->).
  exists p. unfold batches, Py.range.
  destruct (batch_size =? 0) eqn:E; [reflexivity|].
  apply Z.eqb_neq in E. unfold Py.range_length, Py.len.
  replace (0 <? batch_size) with false by (symmetry; apply Z.ltb_ge; lia).
  replace (Z.of_nat (List.length l) <? 0) with false
    by (symmetry; apply Z.ltb_ge; lia).
  reflexivity.
Qed.

(** The rows of a run: tables of tickers of its batches. *)
Lemma run_tables (universe : list string) batch_list period interval :
  forall rows w,
    (forall batch t, In batch batch_list -> In t batch -> In t universe) ->
    (forall tbl, In tbl rows ->
       exists t dft, In t universe /\ tbl = set_ticker t (dropna dft)) ->
    forall tbl, In tbl (snd (run batch_list period interval rows w)) ->
      exists t dft, In t universe /\ tbl = set_ticker t (dropna dft).
Proof.
  induction batch_list as [|batch rest IH]; intros rows w Hsub Hrows;
    [exact Hrows|].
  destruct (fetch batch period interval w) as [w1 [e|batch_data]] eqn:Hf.
  - erewrite run_failed_batch by exact Hf.
    apply IH; [|exact Hrows].
    intros b t Hb. apply Hsub. now right.
  - erewrite run_fetched_batch by exact Hf.
    apply IH; [intros b t Hb; apply Hsub; now right|].
    intros tbl Hin. apply in_app_or in Hin. destruct Hin as [Hin|Hin];
      [now apply Hrows|].
    apply attempt_returned in Hf. destruct Hf as [w0 Ho].
    destruct (once_tables _ _ _ _ Ho) as [_ Htbl].
    destruct (Htbl tbl Hin) as (t & dft & Ht & ->).
    exists t, dft. split; [|reflexivity].
    apply (Hsub batch t); [now left|exact Ht].
Qed.

(** X19. Whatever the provider does, every row that [main] writes, in a
    file of a ticker or in the combined file, bears a ticker of the list
    that [get_index_constituents] gave and misses no value. *)
Theorem X19_main_writes_rows_of_constituents
    index period interval batch_size w w1 tickers w' files :
  get_index_constituents yf_constituents index w = (w1, inr tickers) ->
  main yf_constituents yf_download repr_future agg_close
    index period interval batch_size w
  = (w', inr files) ->
  forall f df row,
    In f files -> content f = HistoryCsv df -> In row df ->
    In (Ticker row) tickers /\ any_na (quote row) = false.
Proof.
  intros Hc Hm. unfold main, bind, lift in Hm. rewrite Hc in Hm.
  destruct (batches tickers batch_size) as [e|plan] eqn:Hb; [discriminate|].
  destruct (run plan period interval [] w1) as [w2 rows] eqn:Hr.
  inversion Hm; subst. clear Hm.
  assert (Hrows : forall tbl, In tbl rows ->
            exists t dft, In t tickers /\ tbl = set_ticker t (dropna dft)).
  { replace rows with (snd (run plan period interval [] w1))
      by (now rewrite Hr).
    apply run_tables.
    - intros batch t Hin Ht. eapply batches_incl; eassumption.
    - intros tbl []. }
  assert (Hrow : forall tbl row, In tbl rows -> In row tbl ->
            In (Ticker row) tickers /\ any_na (quote row) = false).
  { intros tbl row Htbl Hin.
    destruct (Hrows tbl Htbl) as (t & dft & Ht & ->).
    pose proof (set_ticker_rows t dft) as Hall.
    rewrite Forall_forall in Hall. destruct (Hall row Hin) as [-> Hna].
    split; assumption. }
  intros f df row Hf Hcontent Hin.
  unfold save_outputs in Hf. apply in_app_or in Hf. destruct Hf as [Hf|Hf].
  - apply in_flat_map in Hf. destruct Hf as [tbl [Htbl Hfile]].
    unfold ticker_file in Hfile. destruct tbl as [|first more]; [contradiction|].
    destruct Hfile as [<-|[]]. simpl in Hcontent. inversion Hcontent; subst.
    now apply (Hrow (first :: more)).
  - destruct rows as [|tbl0 rest]; [contradiction|].
    destruct Hf as [<-|[<-|[]]]; cbn [content] in Hcontent; [|discriminate].
    inversion Hcontent; subst.
    change (In row (List.concat (tbl0 :: rest))) in Hin.
    apply in_concat in Hin. destruct Hin as [tbl [Htbl Hin]].
    now apply (Hrow tbl).
Qed.

End ScraperFacts.

(** ** The theorems on the sample providers *)

Section OnSamples.
Import Sample.
Local Open Scope string_scope.
Local Open Scope list_scope.

Lemma C1_witness :
  (forall p, exists p' e,
      always_raises ["ENI.MI"; "ISP.MI"] "1y" "1d" p = (p', inl e))
  /\ exists w' e new,
       download_batch always_raises repr_future ["ENI.MI"; "ISP.MI"] "1y" "1d" w0
       = (w', inl (RetryError e))
       /\ (exists p, always_raises ["ENI.MI"; "ISP.MI"] "1y" "1d" p
                     = (provider w', inl e))
       /\ events w' = events w0 ++ new
       /\ List.length (filter is_download new) = 5%nat
       /\ Forall (fun ev => is_download ev = true ->
                            ev = Download ["ENI.MI"; "ISP.MI"] "1y" "1d") new
       /\ sleeps new
          = map (fun k => Z.max 5 (Z.min (2 * 2 ^ (k - 1)) 120)) [1; 2; 3; 4]%Z
       /\ Forall (fun d => 5 <= d <= 120)%Z (sleeps new)
       /\ errors_log w' = errors_log w0.
Proof.
  assert (H : forall p, exists p' e,
             always_raises ["ENI.MI"; "ISP.MI"] "1y" "1d" p = (p', inl e))
    by (intros p; eexists _, _; reflexivity).
  split; [exact H|].
  apply C1_download_batch_retries_then_raises. exact H.
Defined.

Example download_batch_always_raises :
  download_batch always_raises repr_future ["ENI.MI"; "ISP.MI"] "1y" "1d" w0
  = ({| provider := tt;
        errors_log := [];
        events := [Download ["ENI.MI"; "ISP.MI"] "1y" "1d"; Sleep 5;
                   Download ["ENI.MI"; "ISP.MI"] "1y" "1d"; Sleep 5;
                   Download ["ENI.MI"; "ISP.MI"] "1y" "1d"; Sleep 8;
                   Download ["ENI.MI"; "ISP.MI"] "1y" "1d"; Sleep 16;
                   Download ["ENI.MI"; "ISP.MI"] "1y" "1d"] |},
     inl (RetryError (PyError "YFRateLimitError"
                              "Too Many Requests. Rate limited."))).
Proof. reflexivity. Qed.

(** A failure that passes: the second provider call raises, the third
    answers, after a sleep of 5. *)
Example download_batch_recovers :
  exists tables,
    download_batch second_call_raises repr_future ["ENI.MI"] "1y" "1d"
      {| provider := 1%nat; errors_log := []; events := [] |}
    = ({| provider := 3%nat;
          errors_log := [];
          events := [Download ["ENI.MI"] "1y" "1d"; Sleep 5;
                     Download ["ENI.MI"] "1y" "1d"] |},
       inr tables).
Proof. eexists. reflexivity. Qed.

Lemma C5_witness :
  keyed ["ENI.MI"; "XX.MI"; "ISP.MI"] "1y" "1d" (provider w0)
  = (tt, inr (MultiIndexFrame (getitem_of eni_isp)))
  /\ ["ENI.MI"; "XX.MI"; "ISP.MI"] = ["ENI.MI"] ++ "XX.MI" :: ["ISP.MI"]
  /\ getitem_of eni_isp "XX.MI" = inl (PyError "KeyError" "'XX.MI'")
  /\ exists w' results,
       download_batch keyed repr_future ["ENI.MI"; "XX.MI"; "ISP.MI"] "1y" "1d" w0
       = (w', inr results)
       /\ results = extracted (getitem_of eni_isp) ["ENI.MI"]
                    ++ extracted (getitem_of eni_isp) ["ISP.MI"]
       /\ errors_log w'
          = errors_log w0 ++ extraction_errors (getitem_of eni_isp) ["ENI.MI"]
              ++ [ErroreTicker "XX.MI" (PyError "KeyError" "'XX.MI'")]
              ++ extraction_errors (getitem_of eni_isp) ["ISP.MI"]
       /\ (forall t' dft,
             In t' ["ENI.MI"; "XX.MI"; "ISP.MI"] ->
             getitem_of eni_isp t' = inr dft ->
             In (set_ticker t' (dropna dft)) results)
       /\ events w'
          = events w0 ++ [Download ["ENI.MI"; "XX.MI"; "ISP.MI"] "1y" "1d"].
Proof.
  split; [reflexivity|]. split; [reflexivity|]. split; [reflexivity|].
  apply (@C5_ticker_failure_is_logged_and_skipped Z Z pstate keyed repr_future
           ["ENI.MI"; "XX.MI"; "ISP.MI"] "1y" "1d" w0 tt (getitem_of eni_isp)
           ["ENI.MI"] "XX.MI" ["ISP.MI"] (PyError "KeyError" "'XX.MI'"));
    reflexivity.
Defined.

Example download_batch_skips_ticker :
  download_batch keyed repr_future ["ENI.MI"; "XX.MI"; "ISP.MI"] "1y" "1d" w0
  = ({| provider := tt;
        errors_log := [ErroreTicker "XX.MI" (PyError "KeyError" "'XX.MI'")];
        events := [Download ["ENI.MI"; "XX.MI"; "ISP.MI"] "1y" "1d"] |},
     inr [set_ticker "ENI.MI" [full_row 1 14; full_row 3 15];
          set_ticker "ISP.MI" [full_row 1 3; full_row 2 4]]).
Proof. reflexivity. Qed.

(** The shape of the response does not follow the size of the batch: a
    flat response for two tickers goes through the flat branch, and a keyed
    response for one ticker goes through the loop. *)
Lemma C6_counterexample :
  (always_flat ["ENI.MI"; "ISP.MI"] "1y" "1d" (provider w0)
   = (tt, inr (FlatFrame [full_row 1 14; gap_row 2; full_row 3 15]))
   /\ is_flat (FlatFrame [full_row 1 14; gap_row 2; full_row 3 15]) = true
   /\ List.length ["ENI.MI"; "ISP.MI"] <> 1%nat
   /\ download_batch always_flat repr_future ["ENI.MI"; "ISP.MI"] "1y" "1d" w0
      = ({| provider := tt;
            errors_log := [];
            events := [Download ["ENI.MI"; "ISP.MI"] "1y" "1d"] |},
         inr [[{| quote := full_row 1 14; Ticker := "ENI.MI" |};
               {| quote := full_row 3 15; Ticker := "ENI.MI" |}]]))
  /\ (keyed ["ENI.MI"] "1y" "1d" (provider w0)
      = (tt, inr (MultiIndexFrame (getitem_of eni_isp)))
      /\ is_flat (MultiIndexFrame (getitem_of eni_isp)) = false
      /\ List.length ["ENI.MI"] = 1%nat
      /\ download_batch keyed repr_future ["ENI.MI"] "1y" "1d" w0
         = ({| provider := tt;
               errors_log := [];
               events := [Download ["ENI.MI"] "1y" "1d"] |},
            inr [[{| quote := full_row 1 14; Ticker := "ENI.MI" |};
                  {| quote := full_row 3 15; Ticker := "ENI.MI" |}]])).
Proof.
  split; (split; [reflexivity|]); (split; [reflexivity|]);
    (split; [|reflexivity]); [discriminate|reflexivity].
Qed.

Lemma C6_witness :
  by_shape ["ENI.MI"] "1y" "1d" (provider w0)
  = (tt, inr (FlatFrame [full_row 1 14; gap_row 2; full_row 3 15]))
  /\ exists w' tbl,
       download_batch by_shape repr_future ["ENI.MI"] "1y" "1d" w0
       = (w', inr [tbl])
       /\ map (@quote _ _) tbl
          = filter (fun r => negb (any_na r))
                   [full_row 1 14; gap_row 2; full_row 3 15]
       /\ Forall (fun row => Ticker row = "ENI.MI") tbl
       /\ Forall (fun row => any_na (quote row) = false) tbl
       /\ provider w' = tt
       /\ errors_log w' = errors_log w0
       /\ events w' = events w0 ++ [Download ["ENI.MI"] "1y" "1d"].
Proof.
  split; [reflexivity|].
  apply (@C6_flat_response_filtered_and_tagged Z Z pstate by_shape repr_future
           "ENI.MI" [] "1y" "1d" w0 tt
           [full_row 1 14; gap_row 2; full_row 3 15]).
  reflexivity.
Defined.

Example download_batch_flat :
  download_batch by_shape repr_future ["ENI.MI"] "1y" "1d" w0
  = ({| provider := tt;
        errors_log := [];
        events := [Download ["ENI.MI"] "1y" "1d"] |},
     inr [set_ticker "ENI.MI" [full_row 1 14; full_row 3 15]]).
Proof. reflexivity. Qed.

Lemma C10_witness :
  keyed_without_columns ["ENI.MI"; "ISP.MI"] "1y" "1d" (provider w0)
  = (tt, inr (MultiIndexFrame (getitem_of [])))
  /\ (forall t, In t ["ENI.MI"; "ISP.MI"] -> exists e, getitem_of [] t = inl e)
  /\ exists w',
       download_batch keyed_without_columns repr_future
         ["ENI.MI"; "ISP.MI"] "1y" "1d" w0
       = (w', inr [])
       /\ events w' = events w0 ++ [Download ["ENI.MI"; "ISP.MI"] "1y" "1d"]
       /\ (exists lines, errors_log w' = errors_log w0 ++ lines
                         /\ List.length lines = List.length ["ENI.MI"; "ISP.MI"]
                         /\ batch_entries lines = [])
       /\ (forall rest rows,
             download_all keyed_without_columns repr_future
               (["ENI.MI"; "ISP.MI"] :: rest) "1y" "1d" rows w0
             = download_all keyed_without_columns repr_future
                 rest "1y" "1d" rows (emit Throttle w')).
Proof.
  assert (H : forall t, In t ["ENI.MI"; "ISP.MI"] ->
                        exists e, getitem_of [] t = inl e)
    by (intros t _; eexists; reflexivity).
  split; [reflexivity|]. split; [exact H|].
  apply (@C10_all_tickers_fail_batch_succeeds_empty Z Z pstate
           keyed_without_columns repr_future
           ["ENI.MI"; "ISP.MI"] "1y" "1d" w0 tt (getitem_of []));
    [reflexivity|exact H].
Defined.

Example download_batch_no_columns :
  download_batch keyed_without_columns repr_future
    ["ENI.MI"; "ISP.MI"] "1y" "1d" w0
  = ({| provider := tt;
        errors_log := [ErroreTicker "ENI.MI" (PyError "KeyError" "'ENI.MI'");
                       ErroreTicker "ISP.MI" (PyError "KeyError" "'ISP.MI'")];
        events := [Download ["ENI.MI"; "ISP.MI"] "1y" "1d"] |},
     inr []).
Proof. reflexivity. Qed.

(** C3, at the input on which the code breaks it. When the provider answers with a frame whose
    [Symbol] column has no row, or holds missing values only,
    [get_index_constituents] returns the empty list: the fallback is not
    taken. *)
Theorem C3_empty_symbol_column_gives_no_ticker :
  get_index_constituents empty_symbols "FTSEMIB.MI" w0 = (w0, inr [])
  /\ get_index_constituents missing_symbols "FTSEMIB.MI" w0 = (w0, inr []).
Proof. split; reflexivity. Qed.

Example get_index_constituents_listed :
  get_index_constituents listed_symbols "FTSEMIB.MI" w0
  = (w0, inr ["ENI.MI"; "ENEL.MI"]).
Proof. reflexivity. Qed.

Example get_index_constituents_provider_raises :
  get_index_constituents no_constituents "FTSEMIB.MI" w0
  = (w0, inr ["ENI.MI"; "ENEL.MI"; "ISP.MI"; "UCG.MI"; "LDO.MI"; "STLAM.MI"]).
Proof. reflexivity. Qed.

(** With no ticker there is no batch, and [main] writes nothing. *)
Example main_without_tickers :
  main empty_symbols keyed repr_future no_summary "FTSEMIB.MI" "1y" "1d" 5 w0
  = (w0, inr []).
Proof. reflexivity. Qed.

(** The six default tickers in batches of two, with a provider that
    raises for the batch of [UCG.MI]: that batch is retried, logged and
    left, and the batch after it is fetched. *)
Example download_all_one_batch_fails :
  let r := download_all (fails_on "UCG.MI") repr_future
             [["ENI.MI"; "ENEL.MI"]; ["ISP.MI"; "UCG.MI"]; ["LDO.MI"; "STLAM.MI"]]
             "1y" "1d" [] w0 in
  batch_entries (errors_log (fst r))
  = [ErroreBatch ["ISP.MI"; "UCG.MI"]
       (RetryError (PyError "ConnectionError" "connection reset"))]
  /\ filter is_download (events (fst r))
     = [Download ["ENI.MI"; "ENEL.MI"] "1y" "1d";
        Download ["ISP.MI"; "UCG.MI"] "1y" "1d";
        Download ["ISP.MI"; "UCG.MI"] "1y" "1d";
        Download ["ISP.MI"; "UCG.MI"] "1y" "1d";
        Download ["ISP.MI"; "UCG.MI"] "1y" "1d";
        Download ["ISP.MI"; "UCG.MI"] "1y" "1d";
        Download ["LDO.MI"; "STLAM.MI"] "1y" "1d"]
  /\ snd r = [set_ticker "ENI.MI" [full_row 1 14; full_row 3 15]].
Proof. cbv zeta. repeat split; reflexivity. Qed.

Example errors_log_text_one_batch_fails :
  errors_log_text repr_future str_list
    (fst (download_all (fails_on "UCG.MI") repr_future
            [["ENI.MI"; "ENEL.MI"]; ["ISP.MI"; "UCG.MI"]] "1y" "1d" [] w0))
  = ("Errore ENEL.MI: 'ENEL.MI'" ++ newline
     ++ "Errore batch ['ISP.MI', 'UCG.MI']: "
     ++ "RetryError[<Future state=finished raised>]" ++ newline)%string.
Proof. reflexivity. Qed.

Lemma C9_witness :
  get_index_constituents no_constituents "FTSEMIB.MI" w0 = (w0, inr fallback)
  /\ batches fallback 5
     = inr [["ENI.MI"; "ENEL.MI"; "ISP.MI"; "UCG.MI"; "LDO.MI"]; ["STLAM.MI"]]
  /\ download_all always_raises repr_future
       [["ENI.MI"; "ENEL.MI"; "ISP.MI"; "UCG.MI"; "LDO.MI"]; ["STLAM.MI"]]
       "1y" "1d" [] w0
     = (fst (download_all always_raises repr_future
               [["ENI.MI"; "ENEL.MI"; "ISP.MI"; "UCG.MI"; "LDO.MI"]; ["STLAM.MI"]]
               "1y" "1d" [] w0), [])
  /\ save_outputs no_summary "1y" "1d" [] = []
  /\ main no_constituents always_raises repr_future no_summary
       "FTSEMIB.MI" "1y" "1d" 5 w0
     = (fst (download_all always_raises repr_future
               [["ENI.MI"; "ENEL.MI"; "ISP.MI"; "UCG.MI"; "LDO.MI"]; ["STLAM.MI"]]
               "1y" "1d" [] w0), inr []).
Proof.
  split; [reflexivity|]. split; [reflexivity|]. split; [reflexivity|].
  apply (@C9_no_rows_no_outputs Z Z pstate no_constituents always_raises
           repr_future unit no_summary "FTSEMIB.MI" "1y" "1d" 5 w0 w0 fallback
           [["ENI.MI"; "ENEL.MI"; "ISP.MI"; "UCG.MI"; "LDO.MI"]; ["STLAM.MI"]]);
    reflexivity.
Defined.

(** *** The further properties on the sample providers *)

Lemma X1_witness :
  (0 < 2)%Z
  /\ exists plan,
       batches ["ENI.MI"; "ENEL.MI"; "ISP.MI"] 2 = inr plan
       /\ Py.len plan = ((Py.len ["ENI.MI"; "ENEL.MI"; "ISP.MI"] + 2 - 1) / 2)%Z
       /\ forall k, (k < List.length plan)%nat ->
            nth k plan []
            = firstn (Z.to_nat 2)
                (skipn (k * Z.to_nat 2) ["ENI.MI"; "ENEL.MI"; "ISP.MI"]).
Proof.
  split; [lia|].
  apply (@X1_batches_count_and_slices string ["ENI.MI"; "ENEL.MI"; "ISP.MI"] 2).
  lia.
Defined.

Lemma X2_witness :
  ["ENI.MI"; "ENEL.MI"] <> []
  /\ (Py.len ["ENI.MI"; "ENEL.MI"] <= 5)%Z
  /\ batches ["ENI.MI"; "ENEL.MI"] 5 = inr [["ENI.MI"; "ENEL.MI"]].
Proof.
  split; [discriminate|]. split; [unfold Py.len; simpl; lia|].
  apply (@X2_batches_one_batch string ["ENI.MI"; "ENEL.MI"] 5);
    [discriminate|unfold Py.len; simpl; lia].
Defined.

Lemma X5_witness :
  get_index_constituents no_constituents "FTSEMIB.MI" w0
  = ({| provider := tt; errors_log := errors_log w0; events := events w0 |},
     inr ["ENI.MI"; "ENEL.MI"; "ISP.MI"; "UCG.MI"; "LDO.MI"; "STLAM.MI"]).
Proof.
  apply (@X5_get_index_constituents_falls_back pstate no_constituents
           "FTSEMIB.MI" w0 tt
           (inl (PyError "AttributeError"
                         "'Ticker' object has no attribute 'constituents'"))).
  - reflexivity.
  - intros cols H. discriminate H.
Defined.

Lemma X6_witness :
  exists l,
    get_index_constituents listed_symbols "FTSEMIB.MI" w0
    = ({| provider := tt; errors_log := errors_log w0; events := events w0 |},
       inr l)
    /\ NoDup l
    /\ forall x,
         In x l
         <-> In (Some x) [Some "ENI.MI"; Some "ENEL.MI"; None; Some "ENI.MI"].
Proof.
  apply (@X6_get_index_constituents_lists_symbols pstate listed_symbols
           "FTSEMIB.MI" w0 tt
           [("Name", [Some "Eni"; Some "Enel"; Some "Eni"]);
            ("Symbol", [Some "ENI.MI"; Some "ENEL.MI"; None; Some "ENI.MI"])]
           ("Symbol", [Some "ENI.MI"; Some "ENEL.MI"; None; Some "ENI.MI"]));
    reflexivity.
Defined.


Lemma X9_witness :
  (List.length [set_ticker "ENI.MI" [full_row 1 14; full_row 3 15];
                set_ticker "ISP.MI" [full_row 1 3; full_row 2 4]]
   <= List.length ["ENI.MI"; "XX.MI"; "ISP.MI"])%nat
  /\ Forall (fun tbl =>
               exists t, In t ["ENI.MI"; "XX.MI"; "ISP.MI"]
                 /\ Forall (fun row => Ticker row = t
                                       /\ any_na (quote row) = false) tbl)
            [set_ticker "ENI.MI" [full_row 1 14; full_row 3 15];
             set_ticker "ISP.MI" [full_row 1 3; full_row 2 4]].
Proof.
  apply (@X9_download_batch_tables Z Z pstate keyed repr_future
           ["ENI.MI"; "XX.MI"; "ISP.MI"] "1y" "1d" w0
           (fst (download_batch keyed repr_future
                   ["ENI.MI"; "XX.MI"; "ISP.MI"] "1y" "1d" w0))).
  reflexivity.
Defined.

Lemma X10_witness :
  exists tables,
    download_batch second_call_raises repr_future ["ENI.MI"] "1y" "1d"
      {| provider := 1%nat; errors_log := []; events := [] |}
    = ({| provider := 3%nat;
          errors_log := [];
          events := [Download ["ENI.MI"] "1y" "1d"; Sleep 5;
                     Download ["ENI.MI"] "1y" "1d"] |},
       inr tables).
Proof.
  eexists.
  apply (@X10_download_batch_recovers Z Z nat second_call_raises repr_future
           ["ENI.MI"] "1y" "1d"
           {| provider := 1%nat; errors_log := []; events := [] |}
           2%nat (PyError "ConnectionError" "connection reset"));
    reflexivity.
Defined.

Lemma X11_witness :
  exists tables lines,
    download_batch keyed repr_future ["ENI.MI"; "XX.MI"; "ISP.MI"] "1y" "1d" w0
    = (called ["ENI.MI"; "XX.MI"; "ISP.MI"] "1y" "1d" tt lines w0, inr tables)
    /\ (List.length tables + List.length lines)%nat
       = List.length ["ENI.MI"; "XX.MI"; "ISP.MI"]
    /\ batch_entries lines = [].
Proof.
  apply (@X11_keyed_response_table_or_line Z Z pstate keyed repr_future
           ["ENI.MI"; "XX.MI"; "ISP.MI"] "1y" "1d" w0 tt (getitem_of eni_isp)).
  reflexivity.
Defined.

Lemma X12_witness :
  download_batch always_flat repr_future ["ENI.MI"; "ISP.MI"] "1y" "1d" w0
  = (called ["ENI.MI"; "ISP.MI"] "1y" "1d" tt [] w0,
     inr [set_ticker "ENI.MI"
            (dropna [full_row 1 14; gap_row 2; full_row 3 15])]).
Proof.
  apply (@X12_flat_response_goes_to_first_ticker Z Z pstate always_flat
           repr_future "ENI.MI" ["ISP.MI"] "1y" "1d" w0 tt).
  reflexivity.
Defined.

Lemma X14_witness :
  exists files,
    save_outputs no_summary "1y" "1d"
      [[]; set_ticker "ENI.MI" [full_row 1 14]]
    = files
      ++ [{| name := "all_history.csv";
             content := HistoryCsv
                          (List.concat [[]; set_ticker "ENI.MI" [full_row 1 14]]) |};
          {| name := "summary_stats.csv";
             content := SummaryCsv
                          (no_summary
                             (List.concat
                                [[]; set_ticker "ENI.MI" [full_row 1 14]])) |}]
    /\ map (@content _ _ _) files
       = map HistoryCsv
           (filter (fun df => match df with [] => false | _ => true end)
                   [[]; set_ticker "ENI.MI" [full_row 1 14]]).
Proof.
  apply (@X14_save_outputs_files Z Z unit no_summary "1y" "1d"
           [[]; set_ticker "ENI.MI" [full_row 1 14]]).
  discriminate.
Defined.

Lemma X16_witness :
  exists p,
    main no_constituents keyed repr_future no_summary
      "FTSEMIB.MI" "1y" "1d" (-3) w0
    = ({| provider := p; errors_log := errors_log w0; events := events w0 |},
       if (-3 =? 0)%Z
       then inl (ValueError "range() arg 3 must not be zero")
       else inr []).
Proof.
  apply (@X16_main_nonpositive_batch_size Z Z pstate no_constituents keyed
           repr_future unit no_summary "FTSEMIB.MI" "1y" "1d" (-3)%Z w0).
  discriminate.
Defined.

Lemma X19_witness :
  get_index_constituents no_constituents "FTSEMIB.MI" w0
  = (w0, inr ["ENI.MI"; "ENEL.MI"; "ISP.MI"; "UCG.MI"; "LDO.MI"; "STLAM.MI"])
  /\ forall f df row,
       In f (match snd (main no_constituents (fails_on "UCG.MI") repr_future
                          no_summary "FTSEMIB.MI" "1y" "1d" 2 w0) with
             | inr files => files
             | inl _ => []
             end) ->
       content f = HistoryCsv df -> In row df ->
       In (Ticker row)
          ["ENI.MI"; "ENEL.MI"; "ISP.MI"; "UCG.MI"; "LDO.MI"; "STLAM.MI"]
       /\ any_na (quote row) = false.
Proof.
  split; [reflexivity|].
  apply (@X19_main_writes_rows_of_constituents Z Z pstate no_constituents
           (fails_on "UCG.MI") repr_future unit no_summary
           "FTSEMIB.MI" "1y" "1d" 2%Z w0 w0
           ["ENI.MI"; "ENEL.MI"; "ISP.MI"; "UCG.MI"; "LDO.MI"; "STLAM.MI"]
           (fst (main no_constituents (fails_on "UCG.MI") repr_future
                   no_summary "FTSEMIB.MI" "1y" "1d" 2 w0)));
    reflexivity.
Defined.

End OnSamples.

Lemma C2_witness :
  0 < 3
  /\ exists plan,
       batches ["ENI.MI"; "ENEL.MI"; "ISP.MI"; "UCG.MI"]%string 3 = inr plan
       /\ List.concat plan = ["ENI.MI"; "ENEL.MI"; "ISP.MI"; "UCG.MI"]%string
       /\ (forall k, (S k < List.length plan)%nat -> Py.len (nth k plan []) = 3)
       /\ (plan <> [] -> 1 <= Py.len (last plan []) <= 3)
       /\ (forall batch, In batch plan -> batch <> [])
       /\ (plan = [] <-> ["ENI.MI"; "ENEL.MI"; "ISP.MI"; "UCG.MI"]%string = []).
Proof.
  split; [lia|].
  apply (@C2_batches_ordered_partition string
           ["ENI.MI"; "ENEL.MI"; "ISP.MI"; "UCG.MI"]%string 3).
  lia.
Defined.

(** With a batch size of -1 no error is raised. *)
Lemma C7_counterexample :
  -1 <= 0
  /\ batches ["ENI.MI"; "ENEL.MI"]%string (-1) = inr []
  /\ ~ exists e, batches ["ENI.MI"; "ENEL.MI"]%string (-1) = inl e.
Proof.
  split; [lia|]. split; [reflexivity|]. intros [e H]. discriminate H.
Qed.

Lemma C7_witness :
  -2 <= 0
  /\ batches ["ENI.MI"; "ENEL.MI"; "ISP.MI"]%string (-2) =
       (if -2 =? 0 then inl (ValueError "range() arg 3 must not be zero")
        else inr []).
Proof.
  split; [lia|].
  apply (@C7_batches_nonpositive_size string
           ["ENI.MI"; "ENEL.MI"; "ISP.MI"]%string (-2)).
  lia.
Defined.

Example batches_size_zero :
  exists e, batches ["ENI.MI"; "ENEL.MI"]%string 0 = inl e.
Proof. eexists. reflexivity. Qed.

Example batches_7_by_3 :
  batches [1; 2; 3; 4; 5; 6; 7] 3 = inr [[1; 2; 3]; [4; 5; 6]; [7]].
Proof. reflexivity. Qed.

Example batches_6_by_2 :
  batches [1; 2; 3; 4; 5; 6] 2 = inr [[1; 2]; [3; 4]; [5; 6]].
Proof. reflexivity. Qed.

Example batches_empty : batches (@nil Z) 4 = inr [].
Proof. reflexivity. Qed.
